(** * EQS_Painel: the dashboard's computation layer (src/EQS_Painel/app.py)

    The module-level script loads three sheets of one workbook, computes
    the leaders and the per-leader centroids, and serves two figure
    builders, [build_map] and [build_bars_pie], driven by one dropdown.

    Embedding.
    - A pandas column cell is an [option]: [None] is a blank cell (NaN).
    - A DataFrame is a [frame]: the column names it has and its rows; an
      access to a column it lacks raises [KeyError]. The workbook holds the
      sheets as stored; [read_excel] reads as blank a text cell that holds
      one of the reader's default markers of a missing value.
    - The group mean is the library's: a compensated (Kahan) sum over the
      number of values.
    - Python floats are kept behind the interface [Arith], with two
      instances: [Arith_float], IEEE binary64 as the interpreter computes
      it, and [Arith_Q], the same operations without rounding. A property
      stated for every [Arith] holds of the program as it runs; one stated
      for [Arith_Q] holds of its formulas before rounding.
    - The module-level globals are the state [Ctx] of a small state and
      error monad [M]; the figure builders are computations in [M]. *)

From Stdlib Require Import List String Ascii Bool Arith ZArith QArith Qminmax.
From Stdlib Require Import Lia Lqa Permutation Sorted.
From Stdlib Require Import PrimFloat FloatOps SpecFloat Uint63.
Import ListNotations.

Set Implicit Arguments.
Set Warnings "-inexact-float".
Local Open Scope string_scope.
Local Open Scope list_scope.

(** ** Numbers *)

(** The operations the script and the library apply to coordinates.
    [of_Z] is the conversion of an int, [c020] the literal [0.20],
    [num_eqb] the comparison [==], false of a NaN with itself. *)
Class Arith (R : Type) : Type := {
  of_Z : Z -> R;
  c020 : R;
  add : R -> R -> R;
  sub : R -> R -> R;
  mul : R -> R -> R;
  div : R -> R -> R;
  ltb : R -> R -> bool;
  num_eqb : R -> R -> bool
}.

(** Exact arithmetic on rationals. *)
#[global] Instance Arith_Q : Arith Q := {|
  of_Z := inject_Z;
  c020 := 1 # 5;
  add := Qplus;
  sub := Qminus;
  mul := Qmult;
  div := Qdiv;
  ltb := fun x y => negb (Qle_bool y x);
  num_eqb := Qeq_bool
|}.

Definition float_of_Z (z : Z) : float :=
  match z with
  | Z0 => PrimFloat.zero
  | Zpos _ => PrimFloat.of_uint63 (Uint63.of_Z z)
  | Zneg p => PrimFloat.opp (PrimFloat.of_uint63 (Uint63.of_Z (Zpos p)))
  end.

(** IEEE 754 binary64, round to nearest even: CPython's [float]. *)
#[global] Instance Arith_float : Arith float := {|
  of_Z := float_of_Z;
  c020 := 0.2%float;
  add := PrimFloat.add;
  sub := PrimFloat.sub;
  mul := PrimFloat.mul;
  div := PrimFloat.div;
  ltb := PrimFloat.ltb;
  num_eqb := PrimFloat.eqb
|}.

(** The number a binary64 value stands for; none for an infinity or a
    NaN. *)
Definition float_value (x : float) : option Q :=
  match Prim2SF x with
  | S754_zero _ => Some (0 # 1)
  | S754_finite s m e =>
      Some (inject_Z (if s then Zneg m else Zpos m) * Qpower (2 # 1) e)
  | _ => None
  end.

Section Numbers.
Context {R : Type} `{Arith R}.

(** A column holds cells; a blank cell (NaN) is [None]. [dropna] keeps
    the values present. *)
Definition dropna {A : Type} (xs : list (option A)) : list A :=
  flat_map (fun c => match c with Some x => [x] | None => [] end) xs.

(** [Series.min()] and [Series.max()]: blanks are skipped, and a column
    with no value left gives NaN. *)
Definition col_min (xs : list (option R)) : option R :=
  match dropna xs with
  | [] => None
  | x :: t => Some (fold_left (fun m y => if ltb y m then y else m) t x)
  end.

Definition col_max (xs : list (option R)) : option R :=
  match dropna xs with
  | [] => None
  | x :: t => Some (fold_left (fun m y => if ltb m y then y else m) t x)
  end.

(** The sum of a group as the library's group mean accumulates it, with
    Kahan's compensation: [y = v - c; t = s + y; c = (t - s) - y], the
    compensation reset to [0] when it is a NaN; then [s = t]. *)
Definition kahan_step (st : R * R) (v : R) : R * R :=
  let y := sub v (snd st) in
  let t := add (fst st) y in
  let c := sub (sub t (fst st)) y in
  (t, if num_eqb c c then c else of_Z 0).

Definition kahan_sum (xs : list R) : R :=
  fst (fold_left kahan_step xs (of_Z 0, of_Z 0)).

(** The mean of a group: its compensated sum over its number of values. *)
Definition group_mean (vs : list R) : R :=
  div (kahan_sum vs) (of_Z (Z.of_nat (List.length vs))).

(** [mean()] of a group's column: blanks are skipped, and a column with
    no value left gives NaN. *)
Definition col_mean (xs : list (option R)) : option R :=
  match dropna xs with
  | [] => None
  | v :: t => Some (group_mean (v :: t))
  end.

(** Arithmetic on values that may be NaN: NaN propagates. *)
Definition nan2 (f : R -> R -> R) (a b : option R) : option R :=
  match a, b with
  | Some x, Some y => Some (f x y)
  | _, _ => None
  end.

(** Python's builtin [max(a, b)]: [b] only when [b > a], so a NaN first
    argument is returned as it is. *)
Definition py_max (a : option R) (b : R) : option R :=
  match a with
  | Some x => Some (if ltb x b then b else x)
  | None => None
  end.

End Numbers.

(** ** Strings: [sorted] and [unique] *)

Fixpoint insert_str (x : string) (l : list string) : list string :=
  match l with
  | [] => [x]
  | y :: t => if String.leb x y then x :: l else y :: insert_str x t
  end.

(** Python's [sorted] on strings (code point order). *)
Definition sorted (l : list string) : list string := fold_right insert_str [] l.

(** [Series.unique()]: the distinct values, each at its first occurrence. *)
Fixpoint unique (l : list string) : list string :=
  match l with
  | [] => []
  | x :: t => x :: filter (fun y => negb (String.eqb y x)) (unique t)
  end.

(** [cell == l] on a column of strings: a blank cell equals nothing. *)
Definition cell_eqb (c : option string) (l : string) : bool :=
  match c with
  | Some s => String.eqb s l
  | None => false
  end.

(** ** Errors *)

Inductive error : Type :=
| FileNotFoundError (path : string)
| ValueError (sheet : string)
| KeyError (column : string).

Inductive result (A : Type) : Type :=
| Ok (a : A)
| Err (e : error).
Arguments Ok {A} a.
Arguments Err {A} e.

Definition rbind {A B : Type} (r : result A) (k : A -> result B) : result B :=
  match r with
  | Ok a => k a
  | Err e => Err e
  end.

Declare Scope result_scope.
Delimit Scope result_scope with result.
Notation "x <- r ;; k" := (rbind r (fun x => k))
  (at level 61, r at next level, right associativity) : result_scope.

(** ** Data frames *)

(** A DataFrame: the names of its columns and its rows. A row type has a
    field for every column the script reads; [columns] says which of
    them the sheet really has. *)
Record frame (A : Type) : Type := mk_frame {
  columns : list string;
  rows : list A
}.

Definition has_column {A : Type} (df : frame A) (c : string) : bool :=
  existsb (String.eqb c) (columns df).

(** [df.empty]: an axis of length 0. *)
Definition empty {A : Type} (df : frame A) : bool :=
  match columns df, rows df with
  | [], _ => true
  | _, [] => true
  | _, _ => false
  end.

(** [df[c]]: the column, or [KeyError]. [f] reads the field of [c]. *)
Definition getitem {A B : Type} (df : frame A) (c : string) (f : A -> B)
  : result (list B) :=
  if has_column df c then Ok (map f (rows df)) else Err (KeyError c).

(** [df[df[c] == l]]: a new frame with the rows whose cell equals [l]. *)
Definition select_eq {A : Type} (df : frame A) (c : string)
  (f : A -> option string) (l : string) : result (frame A) :=
  if has_column df c
  then Ok (mk_frame (columns df) (filter (fun r => cell_eqb (f r) l) (rows df)))
  else Err (KeyError c).

Definition present {A : Type} (c : option A) : bool :=
  match c with Some _ => true | None => false end.

(** [df.dropna(subset=[c])]. *)
Definition dropna_subset {A B : Type} (df : frame A) (f : A -> option B) : frame A :=
  mk_frame (columns df) (filter (fun r => present (f r)) (rows df)).

Section Tables.
Variable R : Type.

Record resumo_row : Type := {
  r_ATA_Lider : option string
}.

Record atas_row : Type := {
  a_Latitude : option R;
  a_Longitude : option R
}.

Record eqp_row : Type := {
  Serial : option string;
  Modelo : option string;
  ATA_Lider : option string;
  Latitude : option R;
  Longitude : option R
}.

Record centroid_row : Type := {
  c_ATA_Lider : string;
  Lat_Centroide : option R;
  Lon_Centroide : option R
}.

(** The workbook at [DATA_PATH]: each of the three sheets, when it is
    there, with its cells as the file stores them. *)
Record workbook : Type := {
  Resumo_Clusters_V2 : option (frame resumo_row);
  ATAs_Coordenadas : option (frame atas_row);
  Equipamentos_Clusterizados : option (frame eqp_row)
}.

(** The module-level globals once the script has run. *)
Record Ctx : Type := {
  df_resumo : frame resumo_row;
  df_atas : frame atas_row;
  df_eqp : frame eqp_row;
  leaders : list string;
  df_centroids : list centroid_row
}.

End Tables.


(** ** 1) Loading *)

Definition DATA_PATH : string := "data/Clusters_EQS_V2.xlsx".
Definition RESUMO_SHEET : string := "Resumo_Clusters_V2".
Definition ATAS_COORD_SHEET : string := "ATAs_Coordenadas".
Definition EQUIP_SHEET : string := "Equipamentos_Clusterizados".

(** [px.colors.qualitative.Plotly], the ten colours of the library. *)
Definition palette : list string :=
  ["#636EFA"; "#EF553B"; "#00CC96"; "#AB63FA"; "#FFA15A";
   "#19D3F3"; "#FF6692"; "#B6E880"; "#FF97FF"; "#FECB52"].

Section Loading.
Context {R : Type} `{Arith R}.
Local Open Scope result_scope.

(** The texts the reader takes for a blank, its default [na_values];
    the empty text is the first of them. The reader's other conversions
    (a column of numeric texts read as numbers) are not part of the
    model: a text cell it keeps is kept as it is. *)
Definition na_values : list string :=
  [""; "#N/A"; "#N/A N/A"; "#NA"; "-1.#IND"; "-1.#QNAN"; "-NaN"; "-nan";
   "1.#IND"; "1.#QNAN"; "<NA>"; "N/A"; "NA"; "NULL"; "NaN"; "None";
   "n/a"; "nan"; "null"].

Definition na_text (c : option string) : option string :=
  match c with
  | Some s => if existsb (String.eqb s) na_values then None else Some s
  | None => None
  end.

Definition na_resumo (r : resumo_row) : resumo_row :=
  {| r_ATA_Lider := na_text (r_ATA_Lider r) |}.

Definition na_atas (r : atas_row R) : atas_row R := r.

Definition na_eqp (r : eqp_row R) : eqp_row R :=
  {| Serial := na_text (Serial r); Modelo := na_text (Modelo r);
     ATA_Lider := na_text (ATA_Lider r);
     Latitude := Latitude r; Longitude := Longitude r |}.

Definition parse {A : Type} (na : A -> A) (df : frame A) : frame A :=
  mk_frame (columns df) (map na (rows df)).

(** [pd.read_excel(DATA_PATH, sheet_name=...)]: [FileNotFoundError]
    without the file, [ValueError] without the sheet. *)
Definition read_excel {A : Type} (file : option (workbook R)) (sheet_name : string)
  (sheet : workbook R -> option (frame A)) (na : A -> A) : result (frame A) :=
  match file with
  | None => Err (FileNotFoundError DATA_PATH)
  | Some wb =>
      match sheet wb with
      | Some df => Ok (parse na df)
      | None => Err (ValueError sheet_name)
      end
  end.

(** One turn of the loop [for c in ["Latitude", "Longitude"]]: each frame
    drops the rows blank at [c], when it has the column [c]. *)
Definition normalize (c : string) (fa : atas_row R -> option R)
  (fe : eqp_row R -> option R) (dfs : frame (atas_row R) * frame (eqp_row R))
  : frame (atas_row R) * frame (eqp_row R) :=
  let (df_atas, df_eqp) := dfs in
  let df_atas := if has_column df_atas c then dropna_subset df_atas fa else df_atas in
  let df_eqp := if has_column df_eqp c then dropna_subset df_eqp fe else df_eqp in
  (df_atas, df_eqp).

(** The rows of a leader, in the order of the frame. *)
Definition rows_of (df : frame (eqp_row R)) (l : string) : list (eqp_row R) :=
  filter (fun r => cell_eqb (ATA_Lider r) l) (rows df).

(** [df.groupby("ATA_Lider", as_index=False)[["Latitude", "Longitude"]].mean()]
    with its renaming: one row per key present, keys sorted, blank keys
    dropped; [KeyError] when the frame lacks one of the three columns. *)
Definition groupby_mean (df : frame (eqp_row R)) : result (list (centroid_row R)) :=
  if negb (has_column df "ATA_Lider") then Err (KeyError "ATA_Lider")
  else if negb (has_column df "Latitude") then Err (KeyError "Latitude")
  else if negb (has_column df "Longitude") then Err (KeyError "Longitude")
  else Ok (map (fun k =>
                  {| c_ATA_Lider := k;
                     Lat_Centroide := col_mean (map (@Latitude R) (rows_of df k));
                     Lon_Centroide := col_mean (map (@Longitude R) (rows_of df k)) |})
               (sorted (unique (dropna (map (@ATA_Lider R) (rows df)))))).

(** The module-level script, lines 39 to 57. *)
Definition startup (file : option (workbook R)) : result (Ctx R) :=
  df_resumo <- read_excel file RESUMO_SHEET (@Resumo_Clusters_V2 R) na_resumo ;;
  df_atas <- read_excel file ATAS_COORD_SHEET (@ATAs_Coordenadas R) na_atas ;;
  df_eqp <- read_excel file EQUIP_SHEET (@Equipamentos_Clusterizados R) na_eqp ;;
  let (df_atas, df_eqp) :=
    normalize "Longitude" (@a_Longitude R) (@Longitude R)
      (normalize "Latitude" (@a_Latitude R) (@Latitude R) (df_atas, df_eqp)) in
  lider <- getitem df_resumo "ATA_Lider" r_ATA_Lider ;;
  let leaders := sorted (unique (dropna lider)) in
  df_centroids <- groupby_mean df_eqp ;;
  Ok {| df_resumo := df_resumo; df_atas := df_atas; df_eqp := df_eqp;
        leaders := leaders; df_centroids := df_centroids |}.

End Loading.

(** ** Figures *)

Section Figures.
Variable R : Type.

Record Marker : Type := {
  m_size : Z;
  m_color : string;
  m_symbol : option string;
  m_line : option (string * Z)
}.

(** The traces the script adds; attributes that are the same constant in
    every figure (hover template, text position, domains) are left out. *)
Inductive Trace : Type :=
| Scattergeo (lon lat : list (option R)) (text customdata : list (option string))
    (mode : string) (marker : Marker) (name : string)
| Bar (x : list string) (y : list nat) (name : string) (marker_color : string)
| Pie (labels : list string) (values : list nat) (name : string).

Record Layout : Type := {
  title : option string;
  lataxis_range : option (option R * option R);
  lonaxis_range : option (option R * option R)
}.

Record Figure : Type := {
  data : list Trace;
  layout : Layout
}.

End Figures.

Arguments Bar {R} x y name marker_color.
Arguments Pie {R} labels values name.

(** ** Series of counts *)

(** A Series of counts indexed by label, in index order. *)
Definition series : Type := list (string * nat).

Definition count (xs : list string) (k : string) : nat := count_occ string_dec xs k.

(** The counts [value_counts] gathers before it sorts: one entry per
    distinct value present (blanks are not counted), at its first
    occurrence. *)
Definition tally (xs : list (option string)) : series :=
  map (fun k => (k, count (dropna xs) k)) (unique (dropna xs)).

Definition series_sum (s : series) : nat := list_sum (map snd s).

(** [s.loc[k] = v]: the entry labelled [k] is overwritten when the index
    has the label, and a new entry is appended when it has not. *)
Fixpoint loc_set (s : series) (k : string) (v : nat) : series :=
  match s with
  | [] => [(k, v)]
  | (k', v') :: t =>
      if String.eqb k' k then (k', v) :: t else (k', v') :: loc_set t k v
  end.

(** Two of the orders [sort_values(ascending=False)] may give. The first
    is a stable insertion sort by decreasing count: equal counts stay in
    the order of the index. *)
Fixpoint insert_desc (e : string * nat) (s : series) : series :=
  match s with
  | [] => [e]
  | e' :: t => if Nat.leb (snd e') (snd e) then e :: s else e' :: insert_desc e t
  end.

Definition stable_sort_desc (s : series) : series := fold_right insert_desc [] s.

(** The second puts equal counts in decreasing order of their labels. *)
Definition before_label (e e' : string * nat) : bool :=
  Nat.ltb (snd e') (snd e) || (Nat.eqb (snd e') (snd e) && String.leb (fst e') (fst e)).

Fixpoint insert_desc_label (e : string * nat) (s : series) : series :=
  match s with
  | [] => [e]
  | e' :: t => if before_label e e' then e :: s else e' :: insert_desc_label e t
  end.

Definition label_sort_desc (s : series) : series := fold_right insert_desc_label [] s.

(** ** 2) The figure builders *)

Section App.
Context {R : Type} `{Arith R}.

(** [Series.sort_values(ascending=False)]: pandas sorts with its default
    quicksort, which fixes no order among equal counts; the builders take
    the sort as it is, a function of the Series. *)
Variable sort_values : series -> series.

(** The monad of the callbacks: they read the globals [Ctx] and may raise. *)
Definition M (A : Type) : Type := Ctx R -> result A * Ctx R.

Definition ret {A : Type} (a : A) : M A := fun s => (Ok a, s).

Definition bind {A B : Type} (m : M A) (k : A -> M B) : M B :=
  fun s =>
    match m s with
    | (Ok a, s') => k a s'
    | (Err e, s') => (Err e, s')
    end.

Definition gets {A : Type} (f : Ctx R -> A) : M A := fun s => (Ok (f s), s).

Definition lift {A : Type} (r : result A) : M A := fun s => (r, s).

Declare Scope M_scope.
Delimit Scope M_scope with M.
Local Notation "x <- m ;; k" := (bind m (fun x => k))
  (at level 61, m at next level, right associativity) : M_scope.
Local Open Scope M_scope.

(** A [for] loop whose turns each add some traces to the figure. *)
Fixpoint for_each {A B : Type} (f : A -> M (list B)) (l : list A) : M (list B) :=
  match l with
  | [] => ret []
  | a :: t => x <- f a ;; y <- for_each f t ;; ret (x ++ y)
  end.

(** [selected_leader and selected_leader in leaders]. *)
Definition truthy (selected_leader : option string) : bool :=
  match selected_leader with
  | Some s => negb (String.eqb s "")
  | None => false
  end.

Definition valid_leader (selected_leader : option string) (leaders : list string) : option string :=
  match selected_leader with
  | Some s => if truthy selected_leader && existsb (String.eqb s) leaders then Some s else None
  | None => None
  end.

(** [{l: palette[i % len(palette)] for i, l in enumerate(leaders)}] and
    its lookup: the last assignment of a key wins. *)
Definition color_map (leaders : list string) : list (string * string) :=
  map (fun il => (snd il, nth (fst il mod List.length palette) palette ""))
      (combine (seq 0 (List.length leaders)) leaders).

Definition color_of (cm : list (string * string)) (l : string) : string :=
  match find (fun e => String.eqb (fst e) l) (rev cm) with
  | Some e => snd e
  | None => ""
  end.

(** (A) the reference points. *)
Definition atas_layer : M (list (Trace R)) :=
  df_atas <- gets (@df_atas R) ;;
  if empty df_atas then ret []
  else
    lon <- lift (getitem df_atas "Longitude" (@a_Longitude R)) ;;
    lat <- lift (getitem df_atas "Latitude" (@a_Latitude R)) ;;
    ret [Scattergeo lon lat [] [] "markers"
           {| m_size := 5; m_color := "rgba(120,120,120,0.5)";
              m_symbol := None; m_line := None |}
           "ATAs Coordenadas (todas)"].

(** (B) the equipment of each leader, in the order of [leaders]. *)
Definition equipment_layers : M (list (Trace R)) :=
  leaders <- gets (@leaders R) ;;
  let cm := color_map leaders in
  for_each (fun l =>
    df_eqp <- gets (@df_eqp R) ;;
    dfc <- lift (select_eq df_eqp "ATA_Lider" (@ATA_Lider R) l) ;;
    if empty dfc then ret []
    else
      lon <- lift (getitem dfc "Longitude" (@Longitude R)) ;;
      lat <- lift (getitem dfc "Latitude" (@Latitude R)) ;;
      text <- lift (getitem dfc "Serial" (@Serial R)) ;;
      customdata <- lift (getitem dfc "Modelo" (@Modelo R)) ;;
      ret [Scattergeo lon lat text customdata "markers"
             {| m_size := 6; m_color := color_of cm l;
                m_symbol := None; m_line := None |}
             ("Equipamentos – " ++ l)%string]) leaders.

Definition range : Type := (option R * option R)%type.

Definition default_lataxis_range : range := (Some (of_Z (-34)), Some (of_Z 6)).
Definition default_lonaxis_range : range := (Some (of_Z (-75)), Some (of_Z (-34))).

(** [max((hi - lo) * 0.20, 2)]. *)
Definition pad (lo hi : option R) : option R :=
  py_max (nan2 mul (nan2 sub hi lo) (Some c020)) (of_Z 2).

(** [[lo - pad, hi + pad]]. *)
Definition padded (lo hi : option R) : range :=
  (nan2 sub lo (pad lo hi), nan2 add hi (pad lo hi)).

Definition star (selected_leader : string) (lat_c lon_c : option R) : Trace R :=
  Scattergeo [lon_c] [lat_c] [Some selected_leader] [] "markers+text"
    {| m_size := 12; m_color := "gold"; m_symbol := Some "star";
       m_line := Some ("black", 1%Z) |}
    "ATA Líder (centroide)".

(** (C) the star of the selected leader and the two axis ranges. *)
Definition leader_view (selected_leader : option string)
  : M (list (Trace R) * range * range) :=
  leaders <- gets (@leaders R) ;;
  match valid_leader selected_leader leaders with
  | None => ret ([], default_lataxis_range, default_lonaxis_range)
  | Some l =>
      df_centroids <- gets (@df_centroids R) ;;
      match filter (fun c => String.eqb (c_ATA_Lider c) l) df_centroids with
      | [] => ret ([], default_lataxis_range, default_lonaxis_range)
      | row :: _ =>
          let lat_c := Lat_Centroide row in
          let lon_c := Lon_Centroide row in
          df_eqp <- gets (@df_eqp R) ;;
          dfc <- lift (select_eq df_eqp "ATA_Lider" (@ATA_Lider R) l) ;;
          if empty dfc
          then ret ([star l lat_c lon_c], default_lataxis_range, default_lonaxis_range)
          else
            lat <- lift (getitem dfc "Latitude" (@Latitude R)) ;;
            lon <- lift (getitem dfc "Longitude" (@Longitude R)) ;;
            ret ([star l lat_c lon_c],
                 padded (col_min lat) (col_max lat),
                 padded (col_min lon) (col_max lon))
      end
  end.

Definition build_map (selected_leader : option string) : M (Figure R) :=
  a <- atas_layer ;;
  b <- equipment_layers ;;
  v <- leader_view selected_leader ;;
  ret {| data := a ++ b ++ fst (fst v);
         layout := {| title := None;
                      lataxis_range := Some (snd (fst v));
                      lonaxis_range := Some (snd v) |} |}.

(** [Series.value_counts()]: the counts, sorted by decreasing count. *)
Definition value_counts (xs : list (option string)) : series :=
  sort_values (tally xs).

(** [cont = dfc["Modelo"].value_counts().sort_values(ascending=False)]. *)
Definition cont (modelo : list (option string)) : series :=
  sort_values (value_counts modelo).

Definition top5 (c : series) : series := firstn 5 c.

(** The pie's Series [parts]: with more than 8 labels, the first 8 and
    the sum of the others stored at the label ["Outros"]. *)
Definition pie_parts (c : series) : series :=
  if Nat.ltb 8 (List.length c)
  then loc_set (firstn 8 c) "Outros" (series_sum (skipn 8 c))
  else c.

(** The figure of lines 163 to 203, from the column of models and the title. *)
Definition bars_pie_figure (modelo : list (option string)) (title : string) : Figure R :=
  {| data := [Bar (map fst (top5 (cont modelo))) (map snd (top5 (cont modelo)))
                "Top 5 Modelos" "#004B8D";
              Pie (map fst (pie_parts (cont modelo))) (map snd (pie_parts (cont modelo)))
                "Mix de Modelos"];
     layout := {| title := Some title;
                  lataxis_range := None; lonaxis_range := None |} |}.

Definition build_bars_pie (selected_leader : option string) : M (Figure R) :=
  leaders <- gets (@leaders R) ;;
  df_eqp <- gets (@df_eqp R) ;;
  dt <- match valid_leader selected_leader leaders with
        | Some l =>
            dfc <- lift (select_eq df_eqp "ATA_Lider" (@ATA_Lider R) l) ;;
            ret (dfc, ("Cluster " ++ l ++ ": Top 5 Modelos e Mix")%string)
        | None => ret (df_eqp, "Brasil inteiro: Top 5 Modelos e Mix")
        end ;;
  modelo <- lift (getitem (fst dt) "Modelo" (@Modelo R)) ;;
  ret (bars_pie_figure modelo (snd dt)).

(** ** 4) The callback *)

Definition update_dashboard (selected_leader : option string)
  : M (Figure R * Figure R) :=
  let leader := if truthy selected_leader then selected_leader else None in
  m <- build_map leader ;;
  d <- build_bars_pie leader ;;
  ret (m, d).

End App.

(** ** 3) The layout: the dropdown *)

(** [options] of the dropdown [ddl-leader], as (label, value) pairs, and
    its initial [value]. *)
Definition dropdown_options (leaders : list string) : list (string * string) :=
  ("Brasil inteiro", "") :: map (fun l => (l, l)) leaders.

Definition dropdown_value : string := "".

(** ** Vocabulary of the properties *)

Section Vocabulary.
Context {R : Type} `{Arith R}.

(** The coordinates of the rows of a leader. *)
Definition lats (ctx : Ctx R) (l : string) : list (option R) :=
  map (@Latitude R) (rows_of (df_eqp ctx) l).

Definition lons (ctx : Ctx R) (l : string) : list (option R) :=
  map (@Longitude R) (rows_of (df_eqp ctx) l).

(** The entry [groupby_mean] computes for a key. *)
Definition centroid_of (df : frame (eqp_row R)) (k : string) : centroid_row R :=
  {| c_ATA_Lider := k;
     Lat_Centroide := col_mean (map (@Latitude R) (rows_of df k));
     Lon_Centroide := col_mean (map (@Longitude R) (rows_of df k)) |}.

(** The centroid entries of a leader. *)
Definition centroid (ctx : Ctx R) (l : string) : list (centroid_row R) :=
  filter (fun c => String.eqb (c_ATA_Lider c) l) (df_centroids ctx).

(** The rows a selection stands for: a leader's, or all of them. *)
Definition subset (ctx : Ctx R) (selected_leader : option string) : list (eqp_row R) :=
  match valid_leader selected_leader (leaders ctx) with
  | Some l => rows_of (df_eqp ctx) l
  | None => rows (df_eqp ctx)
  end.

(** The model names of the rows that have one. *)
Definition models (rs : list (eqp_row R)) : list string := dropna (map (@Modelo R) rs).

Definition is_star (t : Trace R) : bool :=
  match t with
  | Scattergeo _ _ _ _ _ mk _ =>
      match m_symbol mk with
      | Some s => String.eqb s "star"
      | None => false
      end
  | _ => false
  end.

Definition has_star (fig : Figure R) : bool := existsb is_star (data fig).

(** The globals are left as they were found. *)
Definition reads {A : Type} (m : M (R:=R) A) : Prop := forall s, snd (m s) = s.

(** Every column the figure builders read is in its frame. *)
Definition serves (ctx : Ctx R) : bool :=
  has_column (df_atas ctx) "Longitude" && has_column (df_atas ctx) "Latitude"
  && has_column (df_eqp ctx) "Serial" && has_column (df_eqp ctx) "Modelo".

Definition lacks {A : Type} (sheet : option (frame A)) (c : string) : Prop :=
  exists df, sheet = Some df /\ has_column df c = false.

(** The defects of the source file as the specification lists them: no
    file, a sheet that is not there, or a sheet without a coordinate or
    leader column that it should have. *)
Definition listed_defect (file : option (workbook R)) : Prop :=
  match file with
  | None => True
  | Some wb =>
      Resumo_Clusters_V2 wb = None \/ ATAs_Coordenadas wb = None
      \/ Equipamentos_Clusterizados wb = None
      \/ lacks (Resumo_Clusters_V2 wb) "ATA_Lider"
      \/ lacks (ATAs_Coordenadas wb) "Latitude"
      \/ lacks (ATAs_Coordenadas wb) "Longitude"
      \/ lacks (Equipamentos_Clusterizados wb) "ATA_Lider"
      \/ lacks (Equipamentos_Clusterizados wb) "Latitude"
      \/ lacks (Equipamentos_Clusterizados wb) "Longitude"
  end.

(** The defects that stop the script: the same, but for the coordinate
    columns of the reference points. *)
Definition fatal_defect (file : option (workbook R)) : Prop :=
  match file with
  | None => True
  | Some wb =>
      Resumo_Clusters_V2 wb = None \/ ATAs_Coordenadas wb = None
      \/ Equipamentos_Clusterizados wb = None
      \/ lacks (Resumo_Clusters_V2 wb) "ATA_Lider"
      \/ lacks (Equipamentos_Clusterizados wb) "ATA_Lider"
      \/ lacks (Equipamentos_Clusterizados wb) "Latitude"
      \/ lacks (Equipamentos_Clusterizados wb) "Longitude"
  end.

End Vocabulary.

Section Layers.
Context {R : Type} `{Arith R}.

(** The number of markers of a trace. *)
Definition trace_points (t : Trace R) : nat :=
  match t with
  | Scattergeo lon _ _ _ _ _ _ => List.length lon
  | _ => 0%nat
  end.

(** The layer (B) draws for a leader: none without rows. *)
Definition layer_of (ctx : Ctx R) (l : string) : list (Trace R) :=
  match rows_of (df_eqp ctx) l with
  | [] => []
  | _ :: _ =>
      [Scattergeo (map (@Longitude R) (rows_of (df_eqp ctx) l))
         (map (@Latitude R) (rows_of (df_eqp ctx) l))
         (map (@Serial R) (rows_of (df_eqp ctx) l))
         (map (@Modelo R) (rows_of (df_eqp ctx) l)) "markers"
         {| m_size := 6; m_color := color_of (color_map (leaders ctx)) l;
            m_symbol := None; m_line := None |}
         ("Equipamentos – " ++ l)%string]
  end.

(** A trace none of whose markers has a blank coordinate. *)
Definition trace_located (t : Trace R) : bool :=
  match t with
  | Scattergeo lon lat _ _ _ _ _ => forallb present lon && forallb present lat
  | _ => true
  end.

(** A row whose leader cell is one of the leaders. *)
Definition listed (ctx : Ctx R) (r : eqp_row R) : bool :=
  existsb (cell_eqb (ATA_Lider r)) (leaders ctx).

(** A row with both coordinates. *)
Definition located (r : eqp_row R) : bool :=
  present (Latitude r) && present (Longitude r).

End Layers.

(** Ascending in the order of [String.leb], each entry to the next. *)
Definition ascending (l : list string) : Prop :=
  Sorted (fun a b => String.leb a b = true) l.

(** A Series whose counts never increase along the index. *)
Definition descending (s : series) : Prop :=
  StronglySorted (fun a b => (snd b <= snd a)%nat) s.

(** A least and a greatest value of a list of rationals. *)
Definition is_min (m : Q) (vs : list Q) : Prop :=
  In m vs /\ forall v, In v vs -> (m <= v)%Q.

Definition is_max (m : Q) (vs : list Q) : Prop :=
  In m vs /\ forall v, In v vs -> (v <= m)%Q.

(** The arithmetic mean of a list of rationals: their total over their
    number. *)
Definition total (vs : list Q) : Q := fold_right Qplus (0 # 1) vs.

Definition arithmetic_mean (vs : list Q) : Q :=
  (total vs / inject_Z (Z.of_nat (List.length vs)))%Q.

(** ** Sample workbooks *)

Definition point {R : Type} (serial modelo lider : string) (lat lon : R) : eqp_row R :=
  {| Serial := Some serial; Modelo := Some modelo; ATA_Lider := Some lider;
     Latitude := Some lat; Longitude := Some lon |}.

Definition eqp_columns : list string :=
  ["Serial"; "Modelo"; "ATA_Lider"; "Latitude"; "Longitude"].

Definition resumo_of (ls : list string) : frame resumo_row :=
  mk_frame ["ATA_Lider"] (map (fun l => {| r_ATA_Lider := Some l |}) ls).

(** Leaders A and B with their points, and a leader C without equipment. *)
Definition wb_demo : workbook Q := {|
  Resumo_Clusters_V2 := Some (resumo_of ["B"; "A"; "C"]);
  ATAs_Coordenadas :=
    Some (mk_frame ["ATA"; "Latitude"; "Longitude"]
            [{| a_Latitude := Some (-10 # 1); a_Longitude := Some (-50 # 1) |};
             {| a_Latitude := None; a_Longitude := Some (-51 # 1) |}]);
  Equipamentos_Clusterizados :=
    Some (mk_frame eqp_columns
            [point "s1" "X" "A" (-10 # 1) (-50 # 1);
             point "s2" "Y" "A" (-11 # 1) (-52 # 1);
             point "s3" "X" "B" (-20 # 1) (-60 # 1)])
|}.

Definition no_ctx (R : Type) : Ctx R :=
  {| df_resumo := mk_frame [] []; df_atas := mk_frame [] []; df_eqp := mk_frame [] [];
     leaders := []; df_centroids := [] |}.

Definition loaded {R : Type} `{Arith R} (wb : workbook R) : Ctx R :=
  match startup (Some wb) with
  | Ok ctx => ctx
  | Err _ => no_ctx R
  end.

Definition ctx_demo : Ctx Q := Eval vm_compute in loaded wb_demo.

(** The demo workbook, its reference sheet without coordinate columns. *)
Definition wb_no_coords : workbook Q := {|
  Resumo_Clusters_V2 := Resumo_Clusters_V2 wb_demo;
  ATAs_Coordenadas := Some (mk_frame ["ATA"] [{| a_Latitude := None; a_Longitude := None |}]);
  Equipamentos_Clusterizados := Equipamentos_Clusterizados wb_demo
|}.

(** Three devices of leader A at the same place, in binary64. *)
Definition wb_tenths : workbook float := {|
  Resumo_Clusters_V2 := Some (resumo_of ["A"]);
  ATAs_Coordenadas := Some (mk_frame ["ATA"; "Latitude"; "Longitude"] []);
  Equipamentos_Clusterizados :=
    Some (mk_frame eqp_columns
            [point "s1" "X" "A" 0.1%float 0.1%float;
             point "s2" "X" "A" 0.1%float 0.1%float;
             point "s3" "X" "A" 0.1%float 0.1%float])
|}.

Definition ctx_tenths : Ctx float := Eval vm_compute in loaded wb_tenths.

(** [n] devices of one model, all of leader A at one place. *)
Definition fleet (modelo : string) (n : nat) : list (eqp_row Q) :=
  repeat (point "s" modelo "A" (0 # 1) (0 # 1)) n.

(** Nine models with 9, 8, ..., 1 devices; the third is named Outros. *)
Definition wb_outros : workbook Q := {|
  Resumo_Clusters_V2 := Some (resumo_of ["A"]);
  ATAs_Coordenadas := Some (mk_frame ["ATA"; "Latitude"; "Longitude"] []);
  Equipamentos_Clusterizados :=
    Some (mk_frame eqp_columns
            (fleet "M1" 9 ++ fleet "M2" 8 ++ fleet "Outros" 7 ++ fleet "M4" 6
             ++ fleet "M5" 5 ++ fleet "M6" 4 ++ fleet "M7" 3 ++ fleet "M8" 2
             ++ fleet "M9" 1))
|}.

Definition ctx_outros : Ctx Q := Eval vm_compute in loaded wb_outros.

(** Two devices, one of them with a blank model cell. *)
Definition wb_blank_model : workbook Q := {|
  Resumo_Clusters_V2 := Some (resumo_of ["A"]);
  ATAs_Coordenadas := Some (mk_frame ["ATA"; "Latitude"; "Longitude"] []);
  Equipamentos_Clusterizados :=
    Some (mk_frame eqp_columns
            [point "s1" "X" "A" (0 # 1) (0 # 1);
             {| Serial := Some "s2"; Modelo := None; ATA_Lider := Some "A";
                Latitude := Some (1 # 1); Longitude := Some (1 # 1) |}])
|}.

Definition ctx_blank_model : Ctx Q := Eval vm_compute in loaded wb_blank_model.

Definition ctx_no_coords : Ctx Q := Eval vm_compute in loaded wb_no_coords.

(** The demo workbook, its equipment sheet without the model column. *)
Definition wb_no_modelo : workbook Q := {|
  Resumo_Clusters_V2 := Resumo_Clusters_V2 wb_demo;
  ATAs_Coordenadas := ATAs_Coordenadas wb_demo;
  Equipamentos_Clusterizados :=
    Some (mk_frame ["Serial"; "ATA_Lider"; "Latitude"; "Longitude"]
            [point "s1" "X" "A" (-10 # 1) (-50 # 1)])
|}.

Definition ctx_no_modelo : Ctx Q := Eval vm_compute in loaded wb_no_modelo.

(** Leader A with two devices 20 degrees of latitude and 2 degrees of
    longitude apart. *)
Definition wb_wide : workbook Q := {|
  Resumo_Clusters_V2 := Some (resumo_of ["A"]);
  ATAs_Coordenadas := Some (mk_frame ["ATA"; "Latitude"; "Longitude"] []);
  Equipamentos_Clusterizados :=
    Some (mk_frame eqp_columns
            [point "s1" "X" "A" (-10 # 1) (-50 # 1);
             point "s2" "Y" "A" (-30 # 1) (-52 # 1)])
|}.

Definition ctx_wide : Ctx Q := Eval vm_compute in loaded wb_wide.

(** Two devices of leader A in binary64, at the latitudes [1 + 2^-51]
    and [2 + 2^-51], exactly 1 degree apart, and at one longitude. *)
Definition wb_ulps : workbook float := {|
  Resumo_Clusters_V2 := Some (resumo_of ["A"]);
  ATAs_Coordenadas := Some (mk_frame ["ATA"; "Latitude"; "Longitude"] []);
  Equipamentos_Clusterizados :=
    Some (mk_frame eqp_columns
            [point "s1" "X" "A" 0x1.0000000000002p+0%float 0x1.3333333333333p-2%float;
             point "s2" "X" "A" 0x1.0000000000001p+1%float 0x1.3333333333333p-2%float])
|}.

Definition ctx_ulps : Ctx float := Eval vm_compute in loaded wb_ulps.

(** Three devices of leader A in binary64, at the latitudes 0.1, 0.2
    and 0.3. *)
Definition wb_thirds : workbook float := {|
  Resumo_Clusters_V2 := Some (resumo_of ["A"]);
  ATAs_Coordenadas := Some (mk_frame ["ATA"; "Latitude"; "Longitude"] []);
  Equipamentos_Clusterizados :=
    Some (mk_frame eqp_columns
            [point "s1" "X" "A" 0x1.999999999999ap-4%float 0x1p+0%float;
             point "s2" "X" "A" 0x1.999999999999ap-3%float 0x1p+0%float;
             point "s3" "X" "A" 0x1.3333333333333p-2%float 0x1p+0%float])
|}.

Definition ctx_thirds : Ctx float := Eval vm_compute in loaded wb_thirds.

(** The demo workbook, its equipment sheet without the latitude column. *)
Definition wb_no_latitude : workbook Q := {|
  Resumo_Clusters_V2 := Resumo_Clusters_V2 wb_demo;
  ATAs_Coordenadas := ATAs_Coordenadas wb_demo;
  Equipamentos_Clusterizados :=
    Some (mk_frame ["Serial"; "Modelo"; "ATA_Lider"; "Longitude"]
            [{| Serial := Some "s1"; Modelo := Some "X"; ATA_Lider := Some "A";
                Latitude := None; Longitude := Some (-50 # 1) |}])
|}.

(** * Properties *)

Unset Implicit Arguments.

(** ** Lists of strings *)

Lemma dropna_In (A : Type) (xs : list (option A)) (x : A) :
  In x (dropna xs) <-> In (Some x) xs.
Proof.
  unfold dropna. rewrite in_flat_map. split.
  - intros [[y|] [Hin Hx]]; simpl in Hx; [|contradiction].
    destruct Hx as [->|[]]. exact Hin.
  - intros Hin. exists (Some x). split; [exact Hin | now left].
Qed.

Lemma dropna_map_Some (A : Type) (vs : list A) : dropna (map Some vs) = vs.
Proof.
  unfold dropna. induction vs as [|v vs IH]; simpl; [reflexivity | now rewrite IH].
Qed.

Lemma present_all (A : Type) (xs : list (option A)) :
  Forall (fun c => present c = true) xs -> xs = map Some (dropna xs).
Proof.
  induction 1 as [|c xs Hc _ IH]; [reflexivity|].
  destruct c as [x|]; [|discriminate].
  unfold dropna in *. simpl. now rewrite <- IH.
Qed.

Lemma insert_str_perm (x : string) (l : list string) :
  Permutation (insert_str x l) (x :: l).
Proof.
  induction l as [|y t IH]; simpl; [reflexivity|].
  destruct (String.leb x y); [reflexivity|].
  rewrite IH. apply perm_swap.
Qed.

Lemma sorted_perm (l : list string) : Permutation (sorted l) l.
Proof.
  induction l as [|x t IH]; simpl; [reflexivity|].
  rewrite insert_str_perm. now apply perm_skip.
Qed.

Lemma sorted_In (l : list string) (x : string) : In x (sorted l) <-> In x l.
Proof.
  split; apply Permutation_in; [|symmetry]; apply sorted_perm.
Qed.

Lemma unique_In (l : list string) (x : string) : In x (unique l) <-> In x l.
Proof.
  induction l as [|y t IH]; simpl; [tauto|].
  rewrite filter_In, IH, negb_true_iff, String.eqb_neq.
  destruct (string_dec y x) as [->|Hne]; [tauto|].
  split; [tauto|]. intros [Hy|Hx]; [contradiction|]. right. split; [exact Hx|congruence].
Qed.

Lemma unique_NoDup (l : list string) : NoDup (unique l).
Proof.
  induction l as [|y t IH]; simpl; constructor.
  - rewrite filter_In, negb_true_iff, String.eqb_neq. tauto.
  - now apply NoDup_filter.
Qed.

Lemma keys_NoDup (l : list string) : NoDup (sorted (unique l)).
Proof.
  eapply Permutation_NoDup; [symmetry; apply sorted_perm | apply unique_NoDup].
Qed.

Lemma keys_In (l : list string) (x : string) : In x (sorted (unique l)) <-> In x l.
Proof. now rewrite sorted_In, unique_In. Qed.

Lemma existsb_eqb_In (l : string) (ks : list string) :
  existsb (String.eqb l) ks = true <-> In l ks.
Proof.
  rewrite existsb_exists. split.
  - intros [y [Hy E]]. apply String.eqb_eq in E. now subst.
  - intros Hin. exists l. split; [exact Hin | apply String.eqb_refl].
Qed.

(** In a list of distinct keys, the entries built from the keys that
    carry the key [l] are the entry of [l], when [l] is a key. *)
Lemma filter_key (B : Type) (key : B -> string) (mk : string -> B)
  (Hkey : forall k, key (mk k) = k) (ks : list string) (l : string) :
  NoDup ks ->
  filter (fun c => String.eqb (key c) l) (map mk ks)
  = if existsb (String.eqb l) ks then [mk l] else [].
Proof.
  induction 1 as [|k ks Hnin Hnd IH]; simpl; [reflexivity|].
  rewrite Hkey, IH. rewrite (String.eqb_sym l k).
  destruct (String.eqb_spec k l) as [->|Hne]; simpl; [|reflexivity].
  destruct (existsb (String.eqb l) ks) eqn:E; [|reflexivity].
  apply existsb_eqb_In in E. contradiction.
Qed.

(** ** What a successful start leaves in the globals *)

Section Startup_facts.
Context {R : Type} `{Arith R}.

Lemma startup_inv (file : option (workbook R)) (ctx : Ctx R)
  (Hs : startup file = Ok ctx) :
  exists wb r a e,
    file = Some wb /\ Resumo_Clusters_V2 wb = Some r
    /\ ATAs_Coordenadas wb = Some a /\ Equipamentos_Clusterizados wb = Some e
    /\ has_column r "ATA_Lider" = true /\ has_column e "ATA_Lider" = true
    /\ has_column e "Latitude" = true /\ has_column e "Longitude" = true
    /\ df_eqp ctx
       = dropna_subset (dropna_subset (parse (@na_eqp R) e) (@Latitude R)) (@Longitude R)
    /\ leaders ctx = sorted (unique (dropna (map r_ATA_Lider (rows (parse na_resumo r)))))
    /\ df_centroids ctx
       = map (centroid_of (df_eqp ctx))
           (sorted (unique (dropna (map (@ATA_Lider R) (rows (df_eqp ctx)))))).
Proof.
  unfold startup, read_excel in Hs.
  destruct file as [wb|]; [|discriminate].
  destruct (Resumo_Clusters_V2 wb) as [r|] eqn:Er; [|discriminate].
  destruct (ATAs_Coordenadas wb) as [a|] eqn:Ea; [|discriminate].
  destruct (Equipamentos_Clusterizados wb) as [e|] eqn:Ee; [|discriminate].
  exists wb, r, a, e. cbn [rbind normalize] in Hs.
  unfold getitem in Hs.
  change (has_column (parse na_resumo r) "ATA_Lider") with (has_column r "ATA_Lider") in Hs.
  destruct (has_column r "ATA_Lider") eqn:Hr; [|discriminate].
  cbn [rbind] in Hs. unfold groupby_mean in Hs.
  set (e0 := parse (@na_eqp R) e) in Hs.
  set (e1 := if has_column e0 "Latitude" then dropna_subset e0 (@Latitude R) else e0) in Hs.
  set (e2 := if has_column e1 "Longitude" then dropna_subset e1 (@Longitude R) else e1) in Hs.
  assert (Hc : forall c, has_column e2 c = has_column e c).
  { intro c. unfold e2, e1.
    destruct (has_column e0 "Latitude"), (has_column _ "Longitude"); reflexivity. }
  rewrite !Hc in Hs.
  destruct (has_column e "ATA_Lider") eqn:Hl; [|discriminate].
  destruct (has_column e "Latitude") eqn:Hla; [|discriminate].
  destruct (has_column e "Longitude") eqn:Hlo; [|discriminate].
  cbn [negb rbind] in Hs. injection Hs as <-. cbn [df_eqp leaders df_centroids].
  assert (He2 : e2 = dropna_subset (dropna_subset e0 (@Latitude R)) (@Longitude R)).
  { unfold e2, e1. change (has_column e0 "Latitude") with (has_column e "Latitude").
    rewrite Hla. change (has_column (dropna_subset e0 (@Latitude R)) "Longitude")
      with (has_column e "Longitude"). now rewrite Hlo. }
  rewrite He2. repeat split; reflexivity || assumption.
Qed.

Lemma loaded_columns (file : option (workbook R)) (ctx : Ctx R)
  (Hs : startup file = Ok ctx) :
  has_column (df_eqp ctx) "ATA_Lider" = true
  /\ has_column (df_eqp ctx) "Latitude" = true
  /\ has_column (df_eqp ctx) "Longitude" = true.
Proof.
  destruct (startup_inv file ctx Hs)
    as (wb & r & a & e & _ & _ & _ & _ & _ & Hl & Hla & Hlo & -> & _).
  repeat split; assumption.
Qed.

Lemma na_text_named (c : option string) (l : string) : na_text c = Some l -> l <> "".
Proof.
  destruct c as [s|]; [|discriminate]. cbn [na_text].
  destruct (existsb (String.eqb s) na_values) eqn:E; [discriminate|].
  intros E'. injection E' as <-. intros ->. discriminate E.
Qed.

(** No leader is the empty string. *)
Lemma leaders_named (file : option (workbook R)) (ctx : Ctx R) (l : string)
  (Hs : startup file = Ok ctx) :
  In l (leaders ctx) -> l <> "".
Proof.
  destruct (startup_inv file ctx Hs)
    as (wb & r & a & e & _ & _ & _ & _ & _ & _ & _ & _ & _ & Hl & _).
  rewrite Hl, keys_In, dropna_In, in_map_iff. intros [x [Hx Hin]].
  cbn [parse rows] in Hin. apply in_map_iff in Hin. destruct Hin as [y [<- _]].
  exact (na_text_named _ _ Hx).
Qed.

(** Every row the script keeps has both coordinates. *)
Lemma loaded_coords (file : option (workbook R)) (ctx : Ctx R)
  (Hs : startup file = Ok ctx) :
  Forall (fun r => present (Latitude r) = true /\ present (Longitude r) = true)
         (rows (df_eqp ctx)).
Proof.
  destruct (startup_inv file ctx Hs)
    as (wb & r & a & e & _ & _ & _ & _ & _ & _ & _ & _ & -> & _).
  apply Forall_forall. intros x Hx. cbn in Hx.
  apply filter_In in Hx. destruct Hx as [Hx Hlo].
  apply filter_In in Hx. destruct Hx as [_ Hla]. now split.
Qed.

Lemma rows_of_coords (file : option (workbook R)) (ctx : Ctx R) (l : string)
  (Hs : startup file = Ok ctx) :
  lats ctx l = map Some (dropna (lats ctx l))
  /\ lons ctx l = map Some (dropna (lons ctx l)).
Proof.
  pose proof (loaded_coords file ctx Hs) as Hall.
  assert (Hsub : Forall (fun r => present (Latitude r) = true /\ present (Longitude r) = true)
                        (rows_of (df_eqp ctx) l)).
  { apply Forall_forall. intros x Hx. apply filter_In in Hx.
    rewrite Forall_forall in Hall. apply Hall, Hx. }
  split; apply present_all; apply Forall_map;
    (eapply Forall_impl; [|exact Hsub]); intros x [Ha Hb]; assumption.
Qed.

Lemma key_rows (df : frame (eqp_row R)) (l : string) :
  In l (dropna (map (@ATA_Lider R) (rows df))) <-> rows_of df l <> [].
Proof.
  rewrite dropna_In, in_map_iff. unfold rows_of. split.
  - intros [x [Hk Hx]] Hnil.
    assert (Hin : In x (filter (fun r => cell_eqb (ATA_Lider r) l) (rows df))).
    { apply filter_In. split; [exact Hx|]. rewrite Hk. apply String.eqb_refl. }
    rewrite Hnil in Hin. exact Hin.
  - intros Hne. destruct (filter _ (rows df)) as [|x t] eqn:E; [congruence|].
    assert (Hin : In x (x :: t)) by now left. rewrite <- E in Hin.
    apply filter_In in Hin. destruct Hin as [Hx Hk]. exists x. split; [|exact Hx].
    destruct (ATA_Lider x) as [s|]; [|discriminate].
    apply String.eqb_eq in Hk. now subst.
Qed.

(** The centroid table has the entry of a leader exactly when the leader
    has rows. *)
Lemma centroid_entry (file : option (workbook R)) (ctx : Ctx R) (l : string)
  (Hs : startup file = Ok ctx) :
  centroid ctx l
  = match rows_of (df_eqp ctx) l with
    | [] => []
    | _ :: _ => [centroid_of (df_eqp ctx) l]
    end.
Proof.
  destruct (startup_inv file ctx Hs)
    as (wb & r & a & e & _ & _ & _ & _ & _ & _ & _ & _ & _ & _ & Hc).
  unfold centroid. rewrite Hc.
  rewrite (@filter_key _ (@c_ATA_Lider R) (centroid_of (df_eqp ctx)))
    by (reflexivity || apply keys_NoDup).
  destruct (existsb _ _) eqn:E.
  - apply existsb_eqb_In, keys_In, key_rows in E.
    destruct (rows_of (df_eqp ctx) l); [congruence | reflexivity].
  - destruct (rows_of (df_eqp ctx) l) eqn:Er; [reflexivity|].
    assert (Hin : In l (sorted (unique (dropna (map (@ATA_Lider R) (rows (df_eqp ctx))))))).
    { apply keys_In, key_rows. congruence. }
    apply existsb_eqb_In in Hin. congruence.
Qed.

End Startup_facts.

(** ** The callbacks only read the globals *)

Section Reads.
Context {R : Type} `{Arith R}.
Variable sort_values : series -> series.

Lemma reads_ret (A : Type) (a : A) : reads (R:=R) (ret a).
Proof. intro s. reflexivity. Qed.

Lemma reads_gets (A : Type) (f : Ctx R -> A) : reads (R:=R) (gets f).
Proof. intro s. reflexivity. Qed.

Lemma reads_lift (A : Type) (r : result A) : reads (R:=R) (lift r).
Proof. intro s. reflexivity. Qed.

Lemma reads_bind (A B : Type) (m : M A) (k : A -> M B) :
  reads (R:=R) m -> (forall a, reads (R:=R) (k a)) -> reads (bind m k).
Proof.
  intros Hm Hk s. unfold bind. specialize (Hm s).
  destruct (m s) as [[a|e] s']; simpl in Hm; subst s'; [apply Hk | reflexivity].
Qed.

Lemma reads_if (A : Type) (b : bool) (m1 m2 : M A) :
  reads (R:=R) m1 -> reads (R:=R) m2 -> reads (R:=R) (if b then m1 else m2).
Proof. destruct b; auto. Qed.

Lemma reads_for_each (A B : Type) (f : A -> M (list B)) (l : list A) :
  (forall a, reads (R:=R) (f a)) -> reads (for_each f l).
Proof.
  intros Hf. induction l as [|a t IH]; simpl.
  - apply reads_ret.
  - apply reads_bind; [apply Hf|]. intros x.
    apply reads_bind; [exact IH|]. intros y. apply reads_ret.
Qed.

Ltac reads_tac :=
  repeat first
    [ apply reads_ret | apply reads_gets | apply reads_lift
    | apply reads_for_each; intro
    | apply reads_if
    | apply reads_bind; [|intro] ].

Lemma reads_atas_layer : reads (R:=R) (atas_layer (R:=R)).
Proof. unfold atas_layer. reads_tac. Qed.

Lemma reads_equipment_layers : reads (R:=R) (equipment_layers (R:=R)).
Proof. unfold equipment_layers. reads_tac. Qed.

Lemma reads_leader_view (sel : option string) : reads (R:=R) (leader_view sel).
Proof.
  unfold leader_view. apply reads_bind; [apply reads_gets|]. intros ls.
  destruct (valid_leader sel ls) as [l|]; [|apply reads_ret].
  apply reads_bind; [apply reads_gets|]. intros cs.
  destruct (filter _ cs) as [|row rest]; [apply reads_ret|]. reads_tac.
Qed.

Lemma reads_build_map (sel : option string) : reads (R:=R) (build_map sel).
Proof.
  unfold build_map.
  apply reads_bind; [apply reads_atas_layer|]. intros a.
  apply reads_bind; [apply reads_equipment_layers|]. intros b.
  apply reads_bind; [apply reads_leader_view|]. intros v. apply reads_ret.
Qed.

Lemma reads_build_bars_pie (sel : option string) :
  reads (R:=R) (build_bars_pie sort_values sel).
Proof.
  unfold build_bars_pie.
  apply reads_bind; [apply reads_gets|]. intros ls.
  apply reads_bind; [apply reads_gets|]. intros df.
  apply reads_bind.
  - destruct (valid_leader sel ls); reads_tac.
  - intros dt. reads_tac.
Qed.

(** Running a reader: the result, and the globals untouched. *)
Lemma reads_run (A : Type) (m : M A) (s : Ctx R) : reads (R:=R) m -> m s = (fst (m s), s).
Proof. intros Hm. specialize (Hm s). destruct (m s); simpl in *; now subst. Qed.

Lemma bind_run (A B : Type) (m : M A) (k : A -> M B) (s : Ctx R) (a : A) :
  m s = (Ok a, s) -> bind m k s = k a s.
Proof. intros E. unfold bind. now rewrite E. Qed.

End Reads.

(** ** Running [build_map] *)

Section Map_facts.
Context {R : Type} `{Arith R}.

Lemma not_empty (A : Type) (df : frame A) (c : string) :
  has_column df c = true -> rows df <> [] -> empty df = false.
Proof.
  unfold has_column, empty. intros Hc Hr.
  destruct (columns df); [discriminate|]. destruct (rows df); [congruence | reflexivity].
Qed.

Lemma select_leader (df : frame (eqp_row R)) (l : string) :
  has_column df "ATA_Lider" = true ->
  select_eq df "ATA_Lider" (@ATA_Lider R) l = Ok (mk_frame (columns df) (rows_of df l)).
Proof. intros Hc. unfold select_eq. now rewrite Hc. Qed.

Lemma atas_layer_run (ctx : Ctx R) :
  serves ctx = true ->
  exists a, atas_layer ctx = (Ok a, ctx) /\ existsb is_star a = false.
Proof.
  unfold serves. rewrite !andb_true_iff. intros [[[Hlo Hla] _] _].
  unfold atas_layer, bind, gets, lift, ret, getitem.
  destruct (empty (df_atas ctx)).
  - exists []. now split.
  - rewrite Hlo, Hla. eexists. split; reflexivity.
Qed.

Lemma for_each_run (A : Type) (f : A -> M (list (Trace R))) (ls : list A) (ctx : Ctx R) :
  (forall l, exists x, f l ctx = (Ok x, ctx) /\ existsb is_star x = false) ->
  exists y, for_each f ls ctx = (Ok y, ctx) /\ existsb is_star y = false.
Proof.
  intros Hf. induction ls as [|l t [y [Hy Hs]]]; simpl.
  - exists []. now split.
  - destruct (Hf l) as [x [Hx Hsx]]. exists (x ++ y). split.
    + rewrite (bind_run _ _ _ _ _ x Hx), (bind_run _ _ _ _ _ y Hy). reflexivity.
    + rewrite existsb_app, Hsx, Hs. reflexivity.
Qed.

Lemma equipment_layers_run (ctx : Ctx R) :
  has_column (df_eqp ctx) "ATA_Lider" = true ->
  has_column (df_eqp ctx) "Latitude" = true ->
  has_column (df_eqp ctx) "Longitude" = true ->
  serves ctx = true ->
  exists b, equipment_layers ctx = (Ok b, ctx) /\ existsb is_star b = false.
Proof.
  intros Hl Hla Hlo. unfold serves. rewrite !andb_true_iff. intros [[_ Hse] Hmo].
  unfold equipment_layers. unfold bind at 1. unfold gets at 1.
  apply for_each_run. intros l.
  unfold bind, gets, lift, ret. rewrite (select_leader _ _ Hl).
  destruct (empty _).
  - exists []. now split.
  - unfold getitem, has_column in *. cbn [columns rows].
    rewrite Hl, Hla, Hlo, Hse, Hmo || rewrite Hla, Hlo, Hse, Hmo.
    eexists. split; reflexivity.
Qed.

(** With its columns in place, [build_map] draws the two static layers
    and then what [leader_view] gives for the selection. *)
Lemma build_map_run (file : option (workbook R)) (ctx : Ctx R)
  (Hs : startup file = Ok ctx) (Hserves : serves ctx = true) :
  exists layers,
    existsb is_star layers = false
    /\ forall sel tr lat lon,
         leader_view sel ctx = (Ok (tr, lat, lon), ctx) ->
         build_map sel ctx
         = (Ok {| data := layers ++ tr;
                  layout := {| title := None; lataxis_range := Some lat;
                               lonaxis_range := Some lon |} |}, ctx).
Proof.
  destruct (loaded_columns file ctx Hs) as (Hl & Hla & Hlo).
  destruct (atas_layer_run ctx Hserves) as [a [Ha Hsa]].
  destruct (equipment_layers_run ctx Hl Hla Hlo Hserves) as [b [Hb Hsb]].
  exists (a ++ b). split; [now rewrite existsb_app, Hsa, Hsb|].
  intros sel tr lat lon Hv. unfold build_map.
  rewrite (bind_run _ _ _ _ _ a Ha), (bind_run _ _ _ _ _ b Hb).
  rewrite (bind_run _ _ _ _ _ _ Hv). unfold ret. cbn [fst snd].
  now rewrite app_assoc.
Qed.

(** A selection that names no known leader, or a leader without
    equipment, gives no star and the default ranges. *)
Lemma leader_view_default (file : option (workbook R)) (ctx : Ctx R)
  (Hs : startup file = Ok ctx) (sel : option string) :
  match valid_leader sel (leaders ctx) with
  | Some l => rows_of (df_eqp ctx) l = []
  | None => True
  end ->
  leader_view sel ctx = (Ok ([], default_lataxis_range, default_lonaxis_range), ctx).
Proof.
  intros Hv. unfold leader_view. unfold bind at 1. unfold gets at 1.
  destruct (valid_leader sel (leaders ctx)) as [l|]; [|reflexivity].
  unfold bind at 1. unfold gets at 1.
  fold (centroid ctx l). rewrite (centroid_entry file ctx l Hs), Hv. reflexivity.
Qed.

(** A known leader with equipment gets its star at the centroid and the
    padded ranges of its points. *)
Lemma leader_view_selected (file : option (workbook R)) (ctx : Ctx R)
  (Hs : startup file = Ok ctx) (l : string) :
  In l (leaders ctx) -> l <> "" -> rows_of (df_eqp ctx) l <> [] ->
  leader_view (Some l) ctx
  = (Ok ([star l (Lat_Centroide (centroid_of (df_eqp ctx) l))
                 (Lon_Centroide (centroid_of (df_eqp ctx) l))],
         padded (col_min (lats ctx l)) (col_max (lats ctx l)),
         padded (col_min (lons ctx l)) (col_max (lons ctx l))), ctx).
Proof.
  intros Hin Hne Hrows. destruct (loaded_columns file ctx Hs) as (Hl & Hla & Hlo).
  unfold leader_view. unfold bind at 1. unfold gets at 1.
  assert (Hv : valid_leader (Some l) (leaders ctx) = Some l).
  { unfold valid_leader, truthy. apply String.eqb_neq in Hne. rewrite Hne.
    apply existsb_eqb_In in Hin. now rewrite Hin. }
  rewrite Hv. unfold bind at 1. unfold gets at 1.
  fold (centroid ctx l). rewrite (centroid_entry file ctx l Hs).
  destruct (rows_of (df_eqp ctx) l) as [|r0 rs] eqn:Er; [congruence|].
  unfold bind, gets, lift, ret. rewrite (select_leader _ _ Hl).
  rewrite (not_empty _ _ "ATA_Lider") by (cbn [columns rows]; trivial || (rewrite Er; discriminate)).
  unfold getitem, has_column in *. cbn [columns rows].
  rewrite Hla, Hlo. unfold lats, lons. rewrite Er. reflexivity.
Qed.

(** The selection reaches the figure through [leader_view] only. *)
Lemma build_map_congr (ctx : Ctx R) (sel sel' : option string) :
  leader_view sel ctx = leader_view sel' ctx -> build_map sel ctx = build_map sel' ctx.
Proof.
  intros Hv. unfold build_map. unfold bind at 1 4.
  rewrite (reads_run _ atas_layer ctx reads_atas_layer).
  destruct (fst (atas_layer ctx)) as [a|e]; [|reflexivity].
  unfold bind at 1 3.
  rewrite (reads_run _ equipment_layers ctx reads_equipment_layers).
  destruct (fst (equipment_layers ctx)) as [b|e]; [|reflexivity].
  unfold bind. now rewrite Hv.
Qed.

End Map_facts.

(** ** Running [build_bars_pie] *)

Section Distribution_facts.
Context {R : Type} `{Arith R}.
Variable sort_values : series -> series.

Lemma build_bars_pie_run (ctx : Ctx R) (sel : option string) :
  has_column (df_eqp ctx) "ATA_Lider" = true ->
  has_column (df_eqp ctx) "Modelo" = true ->
  build_bars_pie sort_values sel ctx
  = (Ok (bars_pie_figure sort_values (map (@Modelo R) (subset ctx sel))
           match valid_leader sel (leaders ctx) with
           | Some l => ("Cluster " ++ l ++ ": Top 5 Modelos e Mix")%string
           | None => "Brasil inteiro: Top 5 Modelos e Mix"
           end), ctx).
Proof.
  intros Hl Hm. unfold build_bars_pie, subset, bind, gets, lift, ret.
  destruct (valid_leader sel (leaders ctx)) as [l|].
  - rewrite (select_leader _ _ Hl). unfold getitem, has_column in *.
    cbn [fst snd columns rows]. now rewrite Hm.
  - unfold getitem. cbn [fst snd]. now rewrite Hm.
Qed.

Lemma serves_modelo (ctx : Ctx R) :
  serves ctx = true -> has_column (df_eqp ctx) "Modelo" = true.
Proof. unfold serves. rewrite !andb_true_iff. tauto. Qed.

End Distribution_facts.

(** ** The centroid table (C3) *)

(** The entry of a leader with equipment holds the group means of its
    coordinates, and no row of the leader is left out of them. *)
Lemma centroid_means (R : Type) (HR : Arith R)
  (file : option (workbook R)) (ctx : Ctx R) (L : string)
  (Hs : startup file = Ok ctx) :
  rows_of (df_eqp ctx) L <> [] ->
  centroid ctx L
  = [{| c_ATA_Lider := L;
        Lat_Centroide := Some (group_mean (dropna (lats ctx L)));
        Lon_Centroide := Some (group_mean (dropna (lons ctx L))) |}]
  /\ List.length (dropna (lats ctx L)) = List.length (rows_of (df_eqp ctx) L)
  /\ List.length (dropna (lons ctx L)) = List.length (rows_of (df_eqp ctx) L).
Proof.
  intros Hrows. rewrite (centroid_entry file ctx L Hs).
  destruct (rows_of_coords file ctx L Hs) as [Hla Hlo].
  assert (Hlen : forall (f : eqp_row R -> option R),
             map f (rows_of (df_eqp ctx) L) = map Some (dropna (map f (rows_of (df_eqp ctx) L))) ->
             List.length (dropna (map f (rows_of (df_eqp ctx) L)))
             = List.length (rows_of (df_eqp ctx) L)).
  { intros f E. apply (f_equal (@List.length _)) in E.
    rewrite !length_map in E. symmetry. exact E. }
  pose proof (Hlen _ Hla) as Nla. pose proof (Hlen _ Hlo) as Nlo.
  fold (lats ctx L) in Nla. fold (lons ctx L) in Nlo.
  destruct (rows_of (df_eqp ctx) L) as [|r0 rs] eqn:Er; [congruence|].
  split; [|split; assumption].
  unfold centroid_of. rewrite Er. rewrite <- Er.
  fold (lats ctx L). fold (lons ctx L). unfold col_mean.
  destruct (dropna (lats ctx L)) as [|x xs]; [discriminate|].
  destruct (dropna (lons ctx L)) as [|y ys]; [discriminate|]. reflexivity.
Qed.

(** ** Leaders without equipment, selections without a leader (C6, C4) *)

(** C6. A leader of [leaders] that has no equipment row has no centroid
    entry, and [build_map] on it draws no star and keeps the default
    ranges, latitude [-34, 6] and longitude [-75, -34]. *)
Theorem leader_without_equipment (R : Type) (HR : Arith R)
  (file : option (workbook R)) (ctx : Ctx R) (L : string) :
  startup file = Ok ctx -> serves ctx = true ->
  In L (leaders ctx) -> rows_of (df_eqp ctx) L = [] ->
  centroid ctx L = []
  /\ build_map (Some L) ctx = build_map None ctx
  /\ exists fig,
       fst (build_map (Some L) ctx) = Ok fig
       /\ has_star fig = false
       /\ lataxis_range (layout fig) = Some (Some (of_Z (-34)), Some (of_Z 6))
       /\ lonaxis_range (layout fig) = Some (Some (of_Z (-75)), Some (of_Z (-34))).
Proof.
  intros Hs Hserves Hin Hrows.
  assert (Hv : leader_view (Some L) ctx
               = (Ok ([], default_lataxis_range, default_lonaxis_range), ctx)).
  { apply (leader_view_default file ctx Hs).
    destruct (valid_leader (Some L) (leaders ctx)) as [l|] eqn:E; [|exact I].
    unfold valid_leader in E. destruct (_ && _); [|discriminate].
    injection E as <-. exact Hrows. }
  split; [|split].
  - now rewrite (centroid_entry file ctx L Hs), Hrows.
  - apply build_map_congr. rewrite Hv. symmetry.
    now apply (leader_view_default file ctx Hs).
  - destruct (build_map_run file ctx Hs Hserves) as [layers [Hstar Hrun]].
    eexists. rewrite (Hrun (Some L) [] default_lataxis_range default_lonaxis_range Hv).
    cbn [fst]. split; [reflexivity|]. unfold has_star.
    cbn [data layout lataxis_range lonaxis_range].
    rewrite app_nil_r. split; [exact Hstar|]. split; reflexivity.
Qed.

Lemma leader_without_equipment_witness :
  startup (Some wb_demo) = Ok ctx_demo /\ In "C" (leaders ctx_demo)
  /\ centroid ctx_demo "C" = []
  /\ build_map (Some "C") ctx_demo = build_map None ctx_demo
  /\ exists fig,
       fst (build_map (Some "C") ctx_demo) = Ok fig
       /\ has_star fig = false
       /\ lataxis_range (layout fig) = Some (Some (of_Z (-34)), Some (of_Z 6))
       /\ lonaxis_range (layout fig) = Some (Some (of_Z (-75)), Some (of_Z (-34))).
Proof.
  assert (Hs : startup (Some wb_demo) = Ok ctx_demo) by (vm_compute; reflexivity).
  assert (Hin : In "C" (leaders ctx_demo)) by (vm_compute; tauto).
  split; [exact Hs|]. split; [exact Hin|].
  apply (leader_without_equipment Q Arith_Q (Some wb_demo) ctx_demo "C" Hs);
    [reflexivity | exact Hin | reflexivity].
Defined.

Section Unknown_selection.
Context {R : Type} `{Arith R}.

Lemma valid_leader_unknown (ls : list string) (L : string) :
  ~ In L ls -> valid_leader (Some L) ls = None.
Proof.
  intros Hn. unfold valid_leader.
  destruct (existsb (String.eqb L) ls) eqn:E.
  - apply existsb_eqb_In in E. contradiction.
  - now rewrite andb_false_r.
Qed.

Lemma leader_view_unknown (ctx : Ctx R) (L : string) :
  ~ In L (leaders ctx) -> leader_view (Some L) ctx = leader_view None ctx.
Proof.
  intros Hn. unfold leader_view, bind, gets.
  now rewrite (valid_leader_unknown _ _ Hn).
Qed.

Lemma build_map_unknown (ctx : Ctx R) (L : string) :
  ~ In L (leaders ctx) -> build_map (Some L) ctx = build_map None ctx.
Proof.
  intros Hn. apply build_map_congr, leader_view_unknown, Hn.
Qed.

Lemma build_bars_pie_unknown (sort_values : series -> series) (ctx : Ctx R) (L : string) :
  ~ In L (leaders ctx) ->
  build_bars_pie sort_values (Some L) ctx = build_bars_pie sort_values None ctx.
Proof.
  intros Hn. unfold build_bars_pie, bind, gets.
  now rewrite (valid_leader_unknown _ _ Hn).
Qed.

End Unknown_selection.

(** C4. A selected value that is not in [leaders] is treated as no
    selection: [build_map] and [build_bars_pie] return what they return
    for no selection, and on a workbook with its columns neither raises:
    the map has no star and the default ranges, and the distribution is
    the one of the whole equipment table, titled for the whole country. *)
Theorem unknown_selection_is_no_selection (R : Type) (HR : Arith R)
  (sort_values : series -> series)
  (file : option (workbook R)) (ctx : Ctx R) (L : string) :
  startup file = Ok ctx -> serves ctx = true -> L <> "" -> ~ In L (leaders ctx) ->
  build_map (Some L) ctx = build_map None ctx
  /\ build_bars_pie sort_values (Some L) ctx = build_bars_pie sort_values None ctx
  /\ (exists fig,
        fst (build_map (Some L) ctx) = Ok fig
        /\ has_star fig = false
        /\ lataxis_range (layout fig) = Some default_lataxis_range
        /\ lonaxis_range (layout fig) = Some default_lonaxis_range)
  /\ fst (build_bars_pie sort_values (Some L) ctx)
     = Ok (bars_pie_figure sort_values (map (@Modelo R) (rows (df_eqp ctx)))
             "Brasil inteiro: Top 5 Modelos e Mix").
Proof.
  intros Hs Hserves _ Hn.
  split; [apply build_map_unknown, Hn|].
  split; [apply build_bars_pie_unknown, Hn|].
  pose proof (valid_leader_unknown _ _ Hn) as Hv. split.
  - destruct (build_map_run file ctx Hs Hserves) as [layers [Hstar Hrun]].
    eexists. rewrite (Hrun (Some L) [] default_lataxis_range default_lonaxis_range).
    + cbn [fst]. split; [reflexivity|]. unfold has_star.
      cbn [data layout lataxis_range lonaxis_range].
      rewrite app_nil_r. split; [exact Hstar|]. split; reflexivity.
    + apply (leader_view_default file ctx Hs). now rewrite Hv.
  - destruct (loaded_columns file ctx Hs) as (Hl & _).
    rewrite (build_bars_pie_run sort_values ctx (Some L) Hl (serves_modelo ctx Hserves)).
    unfold subset. now rewrite Hv.
Qed.

Lemma unknown_selection_is_no_selection_witness :
  startup (Some wb_demo) = Ok ctx_demo /\ ~ In "Z" (leaders ctx_demo)
  /\ build_map (Some "Z") ctx_demo = build_map None ctx_demo
  /\ build_bars_pie stable_sort_desc (Some "Z") ctx_demo
     = build_bars_pie stable_sort_desc None ctx_demo
  /\ (exists fig,
        fst (build_map (Some "Z") ctx_demo) = Ok fig
        /\ has_star fig = false
        /\ lataxis_range (layout fig) = Some default_lataxis_range
        /\ lonaxis_range (layout fig) = Some default_lonaxis_range)
  /\ fst (build_bars_pie stable_sort_desc (Some "Z") ctx_demo)
     = Ok (bars_pie_figure stable_sort_desc (map (@Modelo Q) (rows (df_eqp ctx_demo)))
             "Brasil inteiro: Top 5 Modelos e Mix").
Proof.
  assert (Hs : startup (Some wb_demo) = Ok ctx_demo) by (vm_compute; reflexivity).
  assert (Hn : ~ In "Z" (leaders ctx_demo)).
  { vm_compute. intros [E|[E|[E|[]]]]; discriminate E. }
  split; [exact Hs|]. split; [exact Hn|].
  apply (unknown_selection_is_no_selection Q Arith_Q stable_sort_desc
           (Some wb_demo) ctx_demo "Z" Hs); [reflexivity | discriminate | exact Hn].
Defined.

(** ** Exact arithmetic: extremes, sums and means *)

Section Exact.
Local Open Scope Q_scope.

Lemma fold_min_spec (t : list Q) (x : Q) :
  is_min (fold_left (fun m y => if negb (Qle_bool m y) then y else m) t x) (x :: t).
Proof.
  revert x. induction t as [|y t IH]; intros x.
  - split; [now left|]. intros v [<-|[]]. apply Qle_refl.
  - cbn [fold_left]. destruct (IH (if negb (Qle_bool x y) then y else x)) as [Hin Hle].
    assert (Hx' : (if negb (Qle_bool x y) then y else x) <= x
                  /\ (if negb (Qle_bool x y) then y else x) <= y).
    { destruct (Qle_bool x y) eqn:E; cbn [negb].
      - apply Qle_bool_iff in E. split; [apply Qle_refl | exact E].
      - assert (~ x <= y) by (rewrite <- Qle_bool_iff; congruence).
        split; [apply Qlt_le_weak, Qnot_le_lt; assumption | apply Qle_refl]. }
    split.
    + destruct Hin as [E|Hin]; [|right; right; exact Hin].
      rewrite <- E. destruct (negb (Qle_bool x y)); [right; now left | now left].
    + intros v [<-|[<-|Hv]].
      * eapply Qle_trans; [apply Hle; now left | apply Hx'].
      * eapply Qle_trans; [apply Hle; now left | apply Hx'].
      * apply Hle. now right.
Qed.

Lemma fold_max_spec (t : list Q) (x : Q) :
  is_max (fold_left (fun m y => if negb (Qle_bool y m) then y else m) t x) (x :: t).
Proof.
  revert x. induction t as [|y t IH]; intros x.
  - split; [now left|]. intros v [<-|[]]. apply Qle_refl.
  - cbn [fold_left]. destruct (IH (if negb (Qle_bool y x) then y else x)) as [Hin Hle].
    assert (Hx' : x <= (if negb (Qle_bool y x) then y else x)
                  /\ y <= (if negb (Qle_bool y x) then y else x)).
    { destruct (Qle_bool y x) eqn:E; cbn [negb].
      - apply Qle_bool_iff in E. split; [apply Qle_refl | exact E].
      - assert (~ y <= x) by (rewrite <- Qle_bool_iff; congruence).
        split; [apply Qlt_le_weak, Qnot_le_lt; assumption | apply Qle_refl]. }
    split.
    + destruct Hin as [E|Hin]; [|right; right; exact Hin].
      rewrite <- E. destruct (negb (Qle_bool y x)); [right; now left | now left].
    + intros v [<-|[<-|Hv]].
      * eapply Qle_trans; [apply Hx' | apply Hle; now left].
      * eapply Qle_trans; [apply Hx' | apply Hle; now left].
      * apply Hle. now right.
Qed.

Lemma col_min_exact (vs : list Q) :
  vs <> [] -> exists m, col_min (map Some vs) = Some m /\ is_min m vs.
Proof.
  intros Hne. unfold col_min. rewrite dropna_map_Some.
  destruct vs as [|x t]; [congruence|]. eexists. split; [reflexivity|].
  apply fold_min_spec.
Qed.

Lemma col_max_exact (vs : list Q) :
  vs <> [] -> exists m, col_max (map Some vs) = Some m /\ is_max m vs.
Proof.
  intros Hne. unfold col_max. rewrite dropna_map_Some.
  destruct vs as [|x t]; [congruence|]. eexists. split; [reflexivity|].
  apply fold_max_spec.
Qed.

Lemma count_succ (n : nat) : inject_Z (Z.of_nat (S n)) == inject_Z (Z.of_nat n) + 1.
Proof. rewrite Nat2Z.inj_succ. unfold Z.succ. rewrite inject_Z_plus. reflexivity. Qed.

Lemma total_bounds (lo hi : Q) (vs : list Q) :
  (forall v, In v vs -> lo <= v <= hi) ->
  inject_Z (Z.of_nat (List.length vs)) * lo <= total vs
  /\ total vs <= inject_Z (Z.of_nat (List.length vs)) * hi.
Proof.
  induction vs as [|v vs IH]; intros Hb.
  - cbn [total fold_right List.length]. change (inject_Z (Z.of_nat 0)) with 0. split; lra.
  - destruct (IH (fun w Hw => Hb w (or_intror Hw))) as [Hl Hh].
    destruct (Hb v (or_introl eq_refl)) as [Hlv Hvh].
    cbn [List.length]. rewrite count_succ.
    change (total (v :: vs)) with (v + total vs). split; lra.
Qed.

(** The arithmetic mean of a non-empty list lies between any two bounds
    of its values. *)
Lemma arithmetic_mean_bounds (lo hi : Q) (vs : list Q) :
  vs <> [] -> (forall v, In v vs -> lo <= v <= hi) -> lo <= arithmetic_mean vs <= hi.
Proof.
  intros Hne Hb. unfold arithmetic_mean.
  destruct (total_bounds lo hi vs Hb) as [Hl Hh].
  assert (Hn : 0 < inject_Z (Z.of_nat (List.length vs))).
  { destruct vs; [congruence|]. rewrite <- (Zlt_Qlt 0). cbn [List.length]. lia. }
  split.
  - apply Qle_shift_div_l; [exact Hn|]. lra.
  - apply Qle_shift_div_r; [exact Hn|]. lra.
Qed.

(** Without rounding the compensation is always zero, and the
    compensated sum is the total. *)
Lemma kahan_exact (vs : list Q) (s c : Q) :
  c == 0 -> fst (fold_left kahan_step vs (s, c)) == s + total vs.
Proof.
  revert s c. induction vs as [|v vs IH]; intros s c Hc.
  - cbn [fold_left fst total fold_right]. lra.
  - cbn [fold_left].
    assert (Hst : snd (kahan_step (s, c) v) == 0 /\ fst (kahan_step (s, c) v) == s + v).
    { unfold kahan_step. cbn [fst snd sub add num_eqb of_Z Arith_Q]. split; [|lra].
      destruct (Qeq_bool _ _); [lra | reflexivity]. }
    destruct (kahan_step (s, c) v) as [s' c']. cbn [fst snd] in Hst.
    destruct Hst as [Hc' Hs']. rewrite (IH s' c' Hc').
    change (total (v :: vs)) with (v + total vs). lra.
Qed.

Lemma group_mean_exact (vs : list Q) : group_mean vs == arithmetic_mean vs.
Proof.
  unfold group_mean, arithmetic_mean, kahan_sum. cbn [div of_Z Arith_Q].
  apply Qdiv_comp; [|reflexivity].
  rewrite (kahan_exact vs (inject_Z 0) (inject_Z 0)) by reflexivity.
  change (inject_Z 0) with 0. lra.
Qed.

Lemma group_mean_bounds (lo hi : Q) (vs : list Q) :
  vs <> [] -> (forall v, In v vs -> lo <= v <= hi) -> lo <= group_mean vs <= hi.
Proof.
  intros Hne Hb. rewrite group_mean_exact. now apply arithmetic_mean_bounds.
Qed.

Lemma py_max_exact (x : Q) : (if negb (Qle_bool 2 x) then 2 else x) == Qmax x 2.
Proof.
  destruct (Qle_bool 2 x) eqn:E; cbn [negb].
  - apply Qle_bool_iff in E. symmetry. apply Q.max_l. exact E.
  - assert (~ 2 <= x) by (rewrite <- Qle_bool_iff; congruence).
    symmetry. apply Q.max_r. apply Qlt_le_weak, Qnot_le_lt. assumption.
Qed.

Lemma min_le_max (lo hi : Q) (vs : list Q) : is_min lo vs -> is_max hi vs -> lo <= hi.
Proof. intros [_ Hlo] [Hin _]. apply Hlo, Hin. Qed.

End Exact.

(** ** The centroid table and the arithmetic mean (C3) *)

(** C3. After a successful start the centroid table has no two entries
    of one leader; a leader with at least one loaded equipment row has
    exactly one entry, the pair of the group means of its latitudes and
    of its longitudes as the library computes them (compensated sum over
    count), every one of its rows counted; a leader with no equipment
    row has no entry. In exact arithmetic the pair is the pair of the
    arithmetic means of the leader's latitudes and longitudes. *)
Theorem centroids_are_group_means :
  (forall (R : Type) (HR : Arith R) (file : option (workbook R)) (ctx : Ctx R) (L : string),
     startup file = Ok ctx ->
     NoDup (map (@c_ATA_Lider R) (df_centroids ctx))
     /\ (rows_of (df_eqp ctx) L <> [] ->
         centroid ctx L
         = [{| c_ATA_Lider := L;
               Lat_Centroide := Some (group_mean (dropna (lats ctx L)));
               Lon_Centroide := Some (group_mean (dropna (lons ctx L))) |}]
         /\ List.length (dropna (lats ctx L)) = List.length (rows_of (df_eqp ctx) L)
         /\ List.length (dropna (lons ctx L)) = List.length (rows_of (df_eqp ctx) L))
     /\ (rows_of (df_eqp ctx) L = [] -> centroid ctx L = []))
  /\ (forall (file : option (workbook Q)) (ctx : Ctx Q) (L : string),
        startup file = Ok ctx -> rows_of (df_eqp ctx) L <> [] ->
        exists clat clon,
          centroid ctx L
          = [{| c_ATA_Lider := L; Lat_Centroide := Some clat; Lon_Centroide := Some clon |}]
          /\ clat == arithmetic_mean (dropna (lats ctx L))
          /\ clon == arithmetic_mean (dropna (lons ctx L))).
Proof.
  split.
  - intros R HR file ctx L Hs. split; [|split].
    + destruct (startup_inv file ctx Hs)
        as (wb & r & a & e & _ & _ & _ & _ & _ & _ & _ & _ & _ & _ & Hc).
      rewrite Hc, map_map. cbn [centroid_of c_ATA_Lider]. rewrite map_id.
      apply keys_NoDup.
    + intros Hrows. exact (centroid_means R HR file ctx L Hs Hrows).
    + intros Hrows. now rewrite (centroid_entry file ctx L Hs), Hrows.
  - intros file ctx L Hs Hrows.
    destruct (centroid_means Q Arith_Q file ctx L Hs Hrows) as (Hc & _).
    eexists. eexists. split; [exact Hc|]. split; apply group_mean_exact.
Qed.

Lemma centroids_are_group_means_witness :
  startup (Some wb_demo) = Ok ctx_demo /\ rows_of (df_eqp ctx_demo) "A" <> []
  /\ exists clat clon,
       centroid ctx_demo "A"
       = [{| c_ATA_Lider := "A"; Lat_Centroide := Some clat; Lon_Centroide := Some clon |}]
       /\ clat == arithmetic_mean (dropna (lats ctx_demo "A"))
       /\ clon == arithmetic_mean (dropna (lons ctx_demo "A")).
Proof.
  assert (Hs : startup (Some wb_demo) = Ok ctx_demo) by (vm_compute; reflexivity).
  assert (Hr : rows_of (df_eqp ctx_demo) "A" <> []) by (vm_compute; discriminate).
  split; [exact Hs|]. split; [exact Hr|].
  exact (proj2 centroids_are_group_means (Some wb_demo) ctx_demo "A" Hs Hr).
Defined.

(** C3, as the interpreter computes it. In binary64 the group mean of
    the latitudes 0.1, 0.2 and 0.3 is 0.19999999999999998: it is below
    the arithmetic mean of the three values, and it is not the binary64
    value nearest to that mean, which is the one of 0.2. *)
Lemma centroid_not_arithmetic_mean_binary64 :
  startup (Some wb_thirds) = Ok ctx_thirds
  /\ lats ctx_thirds "A"
     = [Some 0x1.999999999999ap-4%float; Some 0x1.999999999999ap-3%float;
        Some 0x1.3333333333333p-2%float]
  /\ map (@Lat_Centroide float) (centroid ctx_thirds "A") = [Some 0x1.9999999999999p-3%float]
  /\ exists q1 q2 q3 c,
       float_value 0x1.999999999999ap-4%float = Some q1
       /\ float_value 0x1.999999999999ap-3%float = Some q2
       /\ float_value 0x1.3333333333333p-2%float = Some q3
       /\ float_value 0x1.9999999999999p-3%float = Some c
       /\ (c < arithmetic_mean [q1; q2; q3])%Q
       /\ (arithmetic_mean [q1; q2; q3] < q2)%Q
       /\ (q2 - arithmetic_mean [q1; q2; q3] < arithmetic_mean [q1; q2; q3] - c)%Q.
Proof.
  split; [vm_compute; reflexivity|]. split; [vm_compute; reflexivity|].
  split; [vm_compute; reflexivity|].
  eexists. eexists. eexists. eexists.
  split; [vm_compute; reflexivity|]. split; [vm_compute; reflexivity|].
  split; [vm_compute; reflexivity|]. split; [vm_compute; reflexivity|].
  repeat split; vm_compute; reflexivity.
Qed.

(** ** The centroid and the bounding box (C7) *)

Section Box.
Local Open Scope Q_scope.

(** The coordinates of a leader with equipment, after a successful
    start: none is blank, and the two lists are not empty. *)
Lemma leader_values (file : option (workbook Q)) (ctx : Ctx Q) (L : string)
  (Hs : startup file = Ok ctx) :
  rows_of (df_eqp ctx) L <> [] ->
  lats ctx L = map Some (dropna (lats ctx L)) /\ dropna (lats ctx L) <> []
  /\ lons ctx L = map Some (dropna (lons ctx L)) /\ dropna (lons ctx L) <> [].
Proof.
  intros Hrows. destruct (rows_of_coords file ctx L Hs) as [Hla Hlo].
  assert (Hne : forall f : eqp_row Q -> option Q,
             map f (rows_of (df_eqp ctx) L) = map Some (dropna (map f (rows_of (df_eqp ctx) L))) ->
             dropna (map f (rows_of (df_eqp ctx) L)) <> []).
  { intros f E Hnil. rewrite Hnil in E. apply map_eq_nil in E. contradiction. }
  repeat split; [exact Hla | apply Hne, Hla | exact Hlo | apply Hne, Hlo].
Qed.

(** C7, in exact arithmetic. For a leader with at least one equipment
    row, the centroid lies in the closed bounding box of the leader's
    points: between the least and the greatest latitude, and between the
    least and the greatest longitude, as [build_map] computes them. *)
Theorem centroid_in_bounding_box
  (file : option (workbook Q)) (ctx : Ctx Q) (L : string) :
  startup file = Ok ctx -> rows_of (df_eqp ctx) L <> [] ->
  exists clat clon lat_min lat_max lon_min lon_max,
    centroid ctx L
    = [{| c_ATA_Lider := L; Lat_Centroide := Some clat; Lon_Centroide := Some clon |}]
    /\ col_min (lats ctx L) = Some lat_min /\ col_max (lats ctx L) = Some lat_max
    /\ col_min (lons ctx L) = Some lon_min /\ col_max (lons ctx L) = Some lon_max
    /\ is_min lat_min (dropna (lats ctx L)) /\ is_max lat_max (dropna (lats ctx L))
    /\ is_min lon_min (dropna (lons ctx L)) /\ is_max lon_max (dropna (lons ctx L))
    /\ lat_min <= clat <= lat_max
    /\ lon_min <= clon <= lon_max.
Proof.
  intros Hs Hrows.
  destruct (centroid_means Q Arith_Q file ctx L Hs Hrows) as (Hcen & _ & _).
  destruct (leader_values file ctx L Hs Hrows) as (Ela & Nla & Elo & Nlo).
  destruct (col_min_exact _ Nla) as (lat_min & Hmin_la & Smin_la).
  destruct (col_max_exact _ Nla) as (lat_max & Hmax_la & Smax_la).
  destruct (col_min_exact _ Nlo) as (lon_min & Hmin_lo & Smin_lo).
  destruct (col_max_exact _ Nlo) as (lon_max & Hmax_lo & Smax_lo).
  rewrite <- Ela in Hmin_la, Hmax_la. rewrite <- Elo in Hmin_lo, Hmax_lo.
  exists (group_mean (dropna (lats ctx L))), (group_mean (dropna (lons ctx L))),
    lat_min, lat_max, lon_min, lon_max.
  repeat (split; [assumption|]). split.
  - apply group_mean_bounds; [exact Nla|]. intros v Hv. split; [apply Smin_la | apply Smax_la]; exact Hv.
  - apply group_mean_bounds; [exact Nlo|]. intros v Hv. split; [apply Smin_lo | apply Smax_lo]; exact Hv.
Qed.

Lemma centroid_in_bounding_box_witness :
  startup (Some wb_demo) = Ok ctx_demo /\ rows_of (df_eqp ctx_demo) "A" <> []
  /\ exists clat clon lat_min lat_max lon_min lon_max,
    centroid ctx_demo "A"
    = [{| c_ATA_Lider := "A"; Lat_Centroide := Some clat; Lon_Centroide := Some clon |}]
    /\ col_min (lats ctx_demo "A") = Some lat_min /\ col_max (lats ctx_demo "A") = Some lat_max
    /\ col_min (lons ctx_demo "A") = Some lon_min /\ col_max (lons ctx_demo "A") = Some lon_max
    /\ is_min lat_min (dropna (lats ctx_demo "A")) /\ is_max lat_max (dropna (lats ctx_demo "A"))
    /\ is_min lon_min (dropna (lons ctx_demo "A")) /\ is_max lon_max (dropna (lons ctx_demo "A"))
    /\ lat_min <= clat <= lat_max
    /\ lon_min <= clon <= lon_max.
Proof.
  assert (Hs : startup (Some wb_demo) = Ok ctx_demo) by (vm_compute; reflexivity).
  assert (Hr : rows_of (df_eqp ctx_demo) "A" <> []) by (vm_compute; discriminate).
  split; [exact Hs|]. split; [exact Hr|].
  exact (centroid_in_bounding_box (Some wb_demo) ctx_demo "A" Hs Hr).
Defined.

End Box.

(** C7, as the interpreter computes it. In binary64 the group mean of
    three latitudes 0.1, the compensated sum 0.30000000000000004 over 3,
    is 0.10000000000000002: the centroid of leader A lies above the
    greatest latitude of A's points. *)
Lemma centroid_outside_box_binary64 :
  startup (Some wb_tenths) = Ok ctx_tenths
  /\ List.length (rows_of (df_eqp ctx_tenths) "A") = 3%nat
  /\ map (@Lat_Centroide float) (centroid ctx_tenths "A") = [Some 0.10000000000000002%float]
  /\ col_max (lats ctx_tenths "A") = Some 0.1%float
  /\ PrimFloat.leb 0.10000000000000002%float 0.1%float = false
  /\ PrimFloat.ltb 0.1%float 0.10000000000000002%float = true.
Proof. vm_compute. repeat split; reflexivity. Qed.

(** ** The viewport of a selected leader (C1) *)

Section Viewport.
Local Open Scope Q_scope.

(** The padded range of an axis, in exact arithmetic. *)
Lemma padded_exact (lo hi : Q) :
  lo <= hi ->
  exists a b,
    padded (Some lo) (Some hi) = (Some a, Some b)
    /\ a == lo - Qmax ((hi - lo) * (1 # 5)) 2
    /\ b == hi + Qmax ((hi - lo) * (1 # 5)) 2
    /\ 4 <= b - a
    /\ a + b == lo + hi
    /\ (hi - lo == 1 -> b - a == 5).
Proof.
  intros Hle. unfold padded, pad, py_max, nan2.
  cbn [mul sub add c020 of_Z ltb Arith_Q]. change (inject_Z 2) with 2.
  eexists. eexists. split; [reflexivity|].
  pose proof (py_max_exact ((hi - lo) * (1 # 5))) as Hp.
  set (p := if negb (Qle_bool 2 ((hi - lo) * (1 # 5))) then 2 else (hi - lo) * (1 # 5)) in *.
  pose proof (Q.le_max_r ((hi - lo) * (1 # 5)) 2) as H2.
  rewrite <- Hp in H2. rewrite <- Hp.
  repeat split; try lra.
  intros E. assert (Hx : (hi - lo) * (1 # 5) <= 2) by lra.
  apply Q.max_r in Hx. rewrite <- Hp in Hx. lra.
Qed.

(** The ranges of a selected leader with equipment, in exact arithmetic:
    each is [min - pad, max + pad] with [pad = max(0.20 * (max - min), 2)],
    centred on the bounding box and at least 4 degrees wide. *)
Lemma viewport_exact
  (file : option (workbook Q)) (ctx : Ctx Q) (L : string) :
  startup file = Ok ctx -> serves ctx = true ->
  In L (leaders ctx) -> rows_of (df_eqp ctx) L <> [] ->
  exists lat_min lat_max lon_min lon_max fig lat_lo lat_hi lon_lo lon_hi,
    is_min lat_min (dropna (lats ctx L)) /\ is_max lat_max (dropna (lats ctx L))
    /\ is_min lon_min (dropna (lons ctx L)) /\ is_max lon_max (dropna (lons ctx L))
    /\ fst (build_map (Some L) ctx) = Ok fig
    /\ lataxis_range (layout fig) = Some (Some lat_lo, Some lat_hi)
    /\ lonaxis_range (layout fig) = Some (Some lon_lo, Some lon_hi)
    /\ lat_lo == lat_min - Qmax ((lat_max - lat_min) * (1 # 5)) 2
    /\ lat_hi == lat_max + Qmax ((lat_max - lat_min) * (1 # 5)) 2
    /\ lon_lo == lon_min - Qmax ((lon_max - lon_min) * (1 # 5)) 2
    /\ lon_hi == lon_max + Qmax ((lon_max - lon_min) * (1 # 5)) 2
    /\ 4 <= lat_hi - lat_lo
    /\ lat_lo + lat_hi == lat_min + lat_max
    /\ (lat_max - lat_min == 1 -> lat_hi - lat_lo == 5).
Proof.
  intros Hs Hserves Hin Hrows. pose proof (leaders_named file ctx L Hs Hin) as Hne.
  destruct (leader_values file ctx L Hs Hrows) as (Ela & Nla & Elo & Nlo).
  destruct (col_min_exact _ Nla) as (lat_min & Hmin_la & Smin_la).
  destruct (col_max_exact _ Nla) as (lat_max & Hmax_la & Smax_la).
  destruct (col_min_exact _ Nlo) as (lon_min & Hmin_lo & Smin_lo).
  destruct (col_max_exact _ Nlo) as (lon_max & Hmax_lo & Smax_lo).
  rewrite <- Ela in Hmin_la, Hmax_la. rewrite <- Elo in Hmin_lo, Hmax_lo.
  destruct (padded_exact lat_min lat_max (min_le_max _ _ _ Smin_la Smax_la))
    as (lat_lo & lat_hi & Pla & A1 & A2 & A3 & A4 & A5).
  destruct (padded_exact lon_min lon_max (min_le_max _ _ _ Smin_lo Smax_lo))
    as (lon_lo & lon_hi & Plo & B1 & B2 & _).
  destruct (build_map_run file ctx Hs Hserves) as [layers [_ Hrun]].
  pose proof (leader_view_selected file ctx Hs L Hin Hne Hrows) as Hv.
  rewrite Hmin_la, Hmax_la, Hmin_lo, Hmax_lo, Pla, Plo in Hv.
  apply Hrun in Hv.
  exists lat_min, lat_max, lon_min, lon_max.
  eexists. exists lat_lo, lat_hi, lon_lo, lon_hi.
  repeat (split; [assumption|]).
  split; [rewrite Hv; reflexivity|]. cbn [layout lataxis_range lonaxis_range].
  repeat (split; [reflexivity || assumption|]). assumption.
Qed.

End Viewport.

Section Any_arithmetic.
Context {R : Type} `{Arith R}.

Lemma fold_pick_In (g : R -> R -> R) (t : list R) (x : R) :
  (forall m y, g m y = m \/ g m y = y) -> In (fold_left g t x) (x :: t).
Proof.
  intros Hg. revert x. induction t as [|y t IH]; intros x; cbn [fold_left].
  - now left.
  - destruct (IH (g x y)) as [E|Hin].
    + rewrite <- E. destruct (Hg x y) as [->| ->]; [now left | right; now left].
    + right. now right.
Qed.

(** The extremes [build_map] takes of a leader's coordinates are
    coordinates of the leader. *)
Lemma col_min_In (xs : list (option R)) (m : R) : col_min xs = Some m -> In m (dropna xs).
Proof.
  unfold col_min. destruct (dropna xs) as [|x t]; [discriminate|].
  intros E. injection E as <-. apply fold_pick_In.
  intros m y. destruct (ltb y m); [now right | now left].
Qed.

Lemma col_max_In (xs : list (option R)) (m : R) : col_max xs = Some m -> In m (dropna xs).
Proof.
  unfold col_max. destruct (dropna xs) as [|x t]; [discriminate|].
  intros E. injection E as <-. apply fold_pick_In.
  intros m y. destruct (ltb m y); [now right | now left].
Qed.

Lemma col_min_Some (xs : list (option R)) : dropna xs <> [] -> exists m, col_min xs = Some m.
Proof. unfold col_min. destruct (dropna xs); [congruence | eexists; reflexivity]. Qed.

Lemma col_max_Some (xs : list (option R)) : dropna xs <> [] -> exists m, col_max xs = Some m.
Proof. unfold col_max. destruct (dropna xs); [congruence | eexists; reflexivity]. Qed.

Lemma leader_has_values (file : option (workbook R)) (ctx : Ctx R) (L : string)
  (Hs : startup file = Ok ctx) :
  rows_of (df_eqp ctx) L <> [] -> dropna (lats ctx L) <> [] /\ dropna (lons ctx L) <> [].
Proof.
  intros Hrows. destruct (rows_of_coords file ctx L Hs) as [Hla Hlo].
  split; intros Hnil; [rewrite Hnil in Hla | rewrite Hnil in Hlo];
    apply map_eq_nil in Hla || apply map_eq_nil in Hlo; contradiction.
Qed.

(** The ranges of a selected leader with equipment, in the operations
    of the script. *)
Lemma viewport_computed (file : option (workbook R)) (ctx : Ctx R) (L : string) :
  startup file = Ok ctx -> serves ctx = true ->
  In L (leaders ctx) -> rows_of (df_eqp ctx) L <> [] ->
  exists fig lat_min lat_max lon_min lon_max,
    build_map (Some L) ctx = (Ok fig, ctx)
    /\ col_min (lats ctx L) = Some lat_min /\ col_max (lats ctx L) = Some lat_max
    /\ col_min (lons ctx L) = Some lon_min /\ col_max (lons ctx L) = Some lon_max
    /\ In lat_min (dropna (lats ctx L)) /\ In lat_max (dropna (lats ctx L))
    /\ In lon_min (dropna (lons ctx L)) /\ In lon_max (dropna (lons ctx L))
    /\ (let span := mul (sub lat_max lat_min) c020 in
        let pad_lat := if ltb span (of_Z 2) then of_Z 2 else span in
        lataxis_range (layout fig)
        = Some (Some (sub lat_min pad_lat), Some (add lat_max pad_lat)))
    /\ (let span := mul (sub lon_max lon_min) c020 in
        let pad_lon := if ltb span (of_Z 2) then of_Z 2 else span in
        lonaxis_range (layout fig)
        = Some (Some (sub lon_min pad_lon), Some (add lon_max pad_lon))).
Proof.
  intros Hs Hserves Hin Hrows. pose proof (leaders_named file ctx L Hs Hin) as Hne.
  destruct (leader_has_values file ctx L Hs Hrows) as [Nla Nlo].
  destruct (col_min_Some _ Nla) as [lat_min Hmin_la].
  destruct (col_max_Some _ Nla) as [lat_max Hmax_la].
  destruct (col_min_Some _ Nlo) as [lon_min Hmin_lo].
  destruct (col_max_Some _ Nlo) as [lon_max Hmax_lo].
  destruct (build_map_run file ctx Hs Hserves) as [layers [_ Hrun]].
  pose proof (leader_view_selected file ctx Hs L Hin Hne Hrows) as Hv.
  apply Hrun in Hv. rewrite Hmin_la, Hmax_la, Hmin_lo, Hmax_lo in Hv.
  eexists. exists lat_min, lat_max, lon_min, lon_max.
  split; [exact Hv|]. repeat (split; [assumption|]).
  split; [exact (col_min_In _ _ Hmin_la)|]. split; [exact (col_max_In _ _ Hmax_la)|].
  split; [exact (col_min_In _ _ Hmin_lo)|]. split; [exact (col_max_In _ _ Hmax_lo)|].
  split; reflexivity.
Qed.

End Any_arithmetic.

(** C1. For a leader of [leaders] with at least one equipment row,
    [build_map] returns a figure whose latitude range is
    [lat_min - pad_lat, lat_max + pad_lat] and whose longitude range is
    [lon_min - pad_lon, lon_max + pad_lon], the extremes being the
    column minimum and maximum of the leader's points and each pad
    [max((max - min) * 0.20, 2)], in the operations of the script. In
    exact arithmetic the extremes are the least and greatest
    coordinates, the range is centred on the bounding box and spans at
    least 4 degrees, and 5 degrees when the points span 1 degree. *)
Theorem viewport_of_selected_leader :
  (forall (R : Type) (HR : Arith R)
          (file : option (workbook R)) (ctx : Ctx R) (L : string),
      startup file = Ok ctx -> serves ctx = true ->
      In L (leaders ctx) -> rows_of (df_eqp ctx) L <> [] ->
      exists fig lat_min lat_max lon_min lon_max,
        build_map (Some L) ctx = (Ok fig, ctx)
        /\ col_min (lats ctx L) = Some lat_min /\ col_max (lats ctx L) = Some lat_max
        /\ col_min (lons ctx L) = Some lon_min /\ col_max (lons ctx L) = Some lon_max
        /\ In lat_min (dropna (lats ctx L)) /\ In lat_max (dropna (lats ctx L))
        /\ In lon_min (dropna (lons ctx L)) /\ In lon_max (dropna (lons ctx L))
        /\ (let span := mul (sub lat_max lat_min) c020 in
            let pad_lat := if ltb span (of_Z 2) then of_Z 2 else span in
            lataxis_range (layout fig)
            = Some (Some (sub lat_min pad_lat), Some (add lat_max pad_lat)))
        /\ (let span := mul (sub lon_max lon_min) c020 in
            let pad_lon := if ltb span (of_Z 2) then of_Z 2 else span in
            lonaxis_range (layout fig)
            = Some (Some (sub lon_min pad_lon), Some (add lon_max pad_lon))))
  /\ (forall (file : option (workbook Q)) (ctx : Ctx Q) (L : string),
      startup file = Ok ctx -> serves ctx = true ->
      In L (leaders ctx) -> rows_of (df_eqp ctx) L <> [] ->
      exists lat_min lat_max lon_min lon_max fig lat_lo lat_hi lon_lo lon_hi,
        is_min lat_min (dropna (lats ctx L)) /\ is_max lat_max (dropna (lats ctx L))
        /\ is_min lon_min (dropna (lons ctx L)) /\ is_max lon_max (dropna (lons ctx L))
        /\ fst (build_map (Some L) ctx) = Ok fig
        /\ lataxis_range (layout fig) = Some (Some lat_lo, Some lat_hi)
        /\ lonaxis_range (layout fig) = Some (Some lon_lo, Some lon_hi)
        /\ lat_lo == lat_min - Qmax ((lat_max - lat_min) * (1 # 5)) 2
        /\ lat_hi == lat_max + Qmax ((lat_max - lat_min) * (1 # 5)) 2
        /\ lon_lo == lon_min - Qmax ((lon_max - lon_min) * (1 # 5)) 2
        /\ lon_hi == lon_max + Qmax ((lon_max - lon_min) * (1 # 5)) 2
        /\ 4 <= lat_hi - lat_lo
        /\ lat_lo + lat_hi == lat_min + lat_max
        /\ (lat_max - lat_min == 1 -> lat_hi - lat_lo == 5))%Q.
Proof.
  split.
  - intros R HR. exact (@viewport_computed R HR).
  - exact viewport_exact.
Qed.

Lemma viewport_of_selected_leader_witness :
  startup (Some wb_wide) = Ok ctx_wide /\ serves ctx_wide = true
  /\ In "A" (leaders ctx_wide) /\ rows_of (df_eqp ctx_wide) "A" <> []
  /\ (Qmax ((-10 - -30) * (1 # 5)) 2 == 4)%Q
  /\ (exists lat_min lat_max lon_min lon_max fig lat_lo lat_hi lon_lo lon_hi,
      is_min lat_min (dropna (lats ctx_wide "A")) /\ is_max lat_max (dropna (lats ctx_wide "A"))
      /\ is_min lon_min (dropna (lons ctx_wide "A")) /\ is_max lon_max (dropna (lons ctx_wide "A"))
      /\ fst (build_map (Some "A") ctx_wide) = Ok fig
      /\ lataxis_range (layout fig) = Some (Some lat_lo, Some lat_hi)
      /\ lonaxis_range (layout fig) = Some (Some lon_lo, Some lon_hi)
      /\ lat_lo == lat_min - Qmax ((lat_max - lat_min) * (1 # 5)) 2
      /\ lat_hi == lat_max + Qmax ((lat_max - lat_min) * (1 # 5)) 2
      /\ lon_lo == lon_min - Qmax ((lon_max - lon_min) * (1 # 5)) 2
      /\ lon_hi == lon_max + Qmax ((lon_max - lon_min) * (1 # 5)) 2
      /\ 4 <= lat_hi - lat_lo
      /\ lat_lo + lat_hi == lat_min + lat_max
      /\ (lat_max - lat_min == 1 -> lat_hi - lat_lo == 5))%Q.
Proof.
  assert (Hs : startup (Some wb_wide) = Ok ctx_wide) by (vm_compute; reflexivity).
  assert (Hin : In "A" (leaders ctx_wide)) by (vm_compute; tauto).
  assert (Hr : rows_of (df_eqp ctx_wide) "A" <> []) by (vm_compute; discriminate).
  split; [exact Hs|]. split; [reflexivity|]. split; [exact Hin|]. split; [exact Hr|].
  split; [vm_compute; reflexivity|].
  exact (proj2 viewport_of_selected_leader (Some wb_wide) ctx_wide "A" Hs eq_refl Hin Hr).
Defined.

(** C1, as the interpreter computes it. In binary64, two points at the
    latitudes [1 + 2^-51] and [2 + 2^-51], exactly 1 degree apart, get
    the latitude range [-1 + 2^-51, 4]: its upper bound is not
    [lat_max + 2], and the range is not centred on the bounding box. The
    two points share the longitude 0.3, and the longitude range
    [-1.7, 2.3], in the values binary64 has for them, is narrower than
    4 degrees. *)
Lemma viewport_off_centre_binary64 :
  startup (Some wb_ulps) = Ok ctx_ulps /\ In "A" (leaders ctx_ulps)
  /\ lats ctx_ulps "A" = [Some 0x1.0000000000002p+0%float; Some 0x1.0000000000001p+1%float]
  /\ lons ctx_ulps "A" = [Some 0x1.3333333333333p-2%float; Some 0x1.3333333333333p-2%float]
  /\ (exists fig,
        build_map (Some "A") ctx_ulps = (Ok fig, ctx_ulps)
        /\ lataxis_range (layout fig)
           = Some (Some (-0x1.ffffffffffffcp-1)%float, Some 0x1p+2%float)
        /\ lonaxis_range (layout fig)
           = Some (Some (-0x1.b333333333333p+0)%float, Some 0x1.2666666666666p+1%float))
  /\ exists lat_min lat_max lat_lo lat_hi lon_lo lon_hi : Q,
       float_value 0x1.0000000000002p+0%float = Some lat_min
       /\ float_value 0x1.0000000000001p+1%float = Some lat_max
       /\ float_value (-0x1.ffffffffffffcp-1)%float = Some lat_lo
       /\ float_value 0x1p+2%float = Some lat_hi
       /\ float_value (-0x1.b333333333333p+0)%float = Some lon_lo
       /\ float_value 0x1.2666666666666p+1%float = Some lon_hi
       /\ (lat_max - lat_min == 1)%Q
       /\ ~ (lat_hi == lat_max + Qmax ((lat_max - lat_min) * (1 # 5)) 2)%Q
       /\ ~ (lat_lo + lat_hi == lat_min + lat_max)%Q
       /\ (lon_hi - lon_lo < 4)%Q.
Proof.
  split; [vm_compute; reflexivity|]. split; [vm_compute; tauto|].
  split; [vm_compute; reflexivity|]. split; [vm_compute; reflexivity|].
  split; [eexists; split; [vm_compute; reflexivity|]; split; vm_compute; reflexivity|].
  do 6 eexists.
  do 6 (split; [vm_compute; reflexivity|]).
  split; [vm_compute; reflexivity|].
  split; [vm_compute; discriminate|].
  split; [vm_compute; discriminate|].
  vm_compute; reflexivity.
Qed.

(** ** Failures of the start (C5) *)

Section Start_failures.
Context {R : Type} `{Arith R}.

(** What the script does once the three sheets are read: it fails on
    the first missing column among the leader column of the summary and
    the leader, latitude and longitude columns of the equipment, and
    succeeds when none is missing. *)
Lemma startup_sheets (wb : workbook R) (r : frame resumo_row)
  (a : frame (atas_row R)) (e : frame (eqp_row R)) :
  Resumo_Clusters_V2 wb = Some r -> ATAs_Coordenadas wb = Some a ->
  Equipamentos_Clusterizados wb = Some e ->
  (has_column r "ATA_Lider" = false -> startup (Some wb) = Err (KeyError "ATA_Lider"))
  /\ (has_column r "ATA_Lider" = true -> has_column e "ATA_Lider" = false ->
      startup (Some wb) = Err (KeyError "ATA_Lider"))
  /\ (has_column r "ATA_Lider" = true -> has_column e "ATA_Lider" = true ->
      has_column e "Latitude" = false -> startup (Some wb) = Err (KeyError "Latitude"))
  /\ (has_column r "ATA_Lider" = true -> has_column e "ATA_Lider" = true ->
      has_column e "Latitude" = true -> has_column e "Longitude" = false ->
      startup (Some wb) = Err (KeyError "Longitude"))
  /\ (has_column r "ATA_Lider" = true -> has_column e "ATA_Lider" = true ->
      has_column e "Latitude" = true -> has_column e "Longitude" = true ->
      exists ctx, startup (Some wb) = Ok ctx).
Proof.
  intros Er Ea Ee. unfold startup, read_excel. rewrite Er, Ea, Ee.
  cbn [rbind normalize]. unfold getitem, groupby_mean.
  change (has_column (parse na_resumo r) "ATA_Lider") with (has_column r "ATA_Lider").
  set (e0 := parse (@na_eqp R) e).
  set (e1 := if has_column e0 "Latitude" then dropna_subset e0 (@Latitude R) else e0).
  set (e2 := if has_column e1 "Longitude" then dropna_subset e1 (@Longitude R) else e1).
  assert (Hc : forall c, has_column e2 c = has_column e c).
  { intro c. unfold e2, e1.
    destruct (has_column e0 "Latitude"), (has_column _ "Longitude"); reflexivity. }
  rewrite !Hc. clearbody e2. clear Hc e1.
  repeat split; intros;
    repeat match goal with
           | E : has_column _ _ = _ |- _ => rewrite E; clear E
           end; cbn [rbind negb]; try reflexivity.
  eexists. reflexivity.
Qed.

Lemma lacks_inv (A : Type) (df : frame A) (c : string) :
  lacks (Some df) c -> has_column df c = false.
Proof. intros [df' [E Hc]]. injection E as <-. exact Hc. Qed.

End Start_failures.

(** C5, as the script behaves. The start fails, and leaves no globals,
    whenever the file is missing, one of the three sheets is absent, the
    leader column is missing from the summary or from the equipment
    sheet, or a coordinate column is missing from the equipment sheet. *)
Theorem startup_fails_on_fatal_defect (R : Type) (HR : Arith R)
  (file : option (workbook R)) :
  fatal_defect file -> exists e, startup file = Err e.
Proof.
  destruct file as [wb|]; [|intros _; eexists; reflexivity].
  cbn [fatal_defect].
  destruct (Resumo_Clusters_V2 wb) as [r|] eqn:Er;
    [|intros _; unfold startup, read_excel; rewrite Er; eexists; reflexivity].
  destruct (ATAs_Coordenadas wb) as [a|] eqn:Ea;
    [|intros _; unfold startup, read_excel; rewrite Er, Ea; eexists; reflexivity].
  destruct (Equipamentos_Clusterizados wb) as [e|] eqn:Ee;
    [|intros _; unfold startup, read_excel; rewrite Er, Ea, Ee; eexists; reflexivity].
  destruct (startup_sheets wb r a e Er Ea Ee) as (F1 & F2 & F3 & F4 & _).
  destruct (has_column r "ATA_Lider") eqn:Hr; [|intros _; eexists; now apply F1].
  destruct (has_column e "ATA_Lider") eqn:Hl; [|intros _; eexists; now apply F2].
  destruct (has_column e "Latitude") eqn:Hla; [|intros _; eexists; now apply F3].
  destruct (has_column e "Longitude") eqn:Hlo; [|intros _; eexists; now apply F4].
  intros [D|[D|[D|[D|[D|[D|D]]]]]]; try discriminate D;
    apply lacks_inv in D; congruence.
Qed.

Lemma startup_fails_on_fatal_defect_witness :
  fatal_defect (Some wb_no_latitude)
  /\ lacks (Equipamentos_Clusterizados wb_no_latitude) "Latitude"
  /\ exists e, startup (Some wb_no_latitude) = Err e.
Proof.
  assert (L : lacks (Equipamentos_Clusterizados wb_no_latitude) "Latitude")
    by (eexists; split; reflexivity).
  assert (D : fatal_defect (Some wb_no_latitude)) by (do 5 right; left; exact L).
  split; [exact D|]. split; [exact L|].
  exact (startup_fails_on_fatal_defect Q Arith_Q (Some wb_no_latitude) D).
Defined.

(** C5, as the specification states it, fails: the reference sheet of
    this workbook has neither coordinate column, and the start succeeds;
    the first map then raises [KeyError]. *)
Lemma startup_survives_reference_sheet_without_coordinates :
  listed_defect (Some wb_no_coords)
  /\ lacks (ATAs_Coordenadas wb_no_coords) "Latitude"
  /\ lacks (ATAs_Coordenadas wb_no_coords) "Longitude"
  /\ (exists ctx, startup (Some wb_no_coords) = Ok ctx)
  /\ ~ (exists e, startup (Some wb_no_coords) = Err e)
  /\ fst (build_map None (loaded wb_no_coords)) = Err (KeyError "Longitude").
Proof.
  assert (L1 : lacks (ATAs_Coordenadas wb_no_coords) "Latitude")
    by (eexists; split; reflexivity).
  assert (L2 : lacks (ATAs_Coordenadas wb_no_coords) "Longitude")
    by (eexists; split; reflexivity).
  split; [do 4 right; left; exact L1|]. split; [exact L1|]. split; [exact L2|].
  split; [eexists; vm_compute; reflexivity|].
  split; [intros [e He]; vm_compute in He; discriminate He|].
  vm_compute. reflexivity.
Qed.

(** ** Counting and ranking models *)

Section Counting.
Local Open Scope nat_scope.

Lemma tally_labels (xs : list (option string)) :
  map fst (tally xs) = unique (dropna xs).
Proof. unfold tally. rewrite map_map. cbn [fst]. apply map_id. Qed.



(** Over distinct keys that cover a list, the counts add up to its length. *)
Lemma indicator_zero (ks : list string) (a : string) :
  ~ In a ks -> list_sum (map (fun k => if string_dec a k then 1 else 0) ks) = 0.
Proof.
  induction ks as [|k ks IH]; intros Hn; [reflexivity|]. simpl map; simpl list_sum.
  destruct (string_dec a k) as [E|_]; [exfalso; apply Hn; left; now symmetry|].
  apply IH. intros Hin. apply Hn. now right.
Qed.

Lemma indicator_sum (ks : list string) (a : string) :
  NoDup ks -> In a ks ->
  list_sum (map (fun k => if string_dec a k then 1 else 0) ks) = 1.
Proof.
  induction 1 as [|k ks Hnin Hnd IH]; [intros []|].
  intros [E|Hin]; simpl map; simpl list_sum.
  - subst k. destruct (string_dec a a); [|congruence].
    now rewrite (indicator_zero ks a Hnin).
  - destruct (string_dec a k) as [E|_]; [subst k; contradiction|]. now apply IH.
Qed.

Lemma counts_add_up (vs ks : list string) :
  NoDup ks -> (forall v, In v vs -> In v ks) ->
  list_sum (map (count vs) ks) = List.length vs.
Proof.
  intros Hnd. induction vs as [|a vs IH]; intros Hcov.
  - clear Hnd Hcov. induction ks as [|k ks IH]; [reflexivity|]. simpl map; simpl list_sum. exact IH.
  - assert (E : forall l, list_sum (map (count (a :: vs)) l)
                          = list_sum (map (fun k => if string_dec a k then 1 else 0) l)
                            + list_sum (map (count vs) l)).
    { induction l as [|k l IHl]; [reflexivity|]. simpl map; simpl list_sum. rewrite IHl.
      unfold count. cbn [count_occ]. destruct (string_dec a k); lia. }
    rewrite E, indicator_sum by (trivial || (apply Hcov; now left)).
    rewrite IH by (intros v Hv; apply Hcov; now right). reflexivity.
Qed.

Lemma series_sum_tally (xs : list (option string)) :
  series_sum (tally xs) = List.length (dropna xs).
Proof.
  unfold series_sum, tally. rewrite map_map. cbn [snd].
  apply counts_add_up; [apply unique_NoDup|]. intros v Hv. now apply unique_In.
Qed.

Lemma series_sum_perm (s s' : series) : Permutation s s' -> series_sum s = series_sum s'.
Proof.
  unfold series_sum. induction 1; simpl map; simpl list_sum; lia.
Qed.

Lemma series_sum_app (s s' : series) : series_sum (s ++ s') = series_sum s + series_sum s'.
Proof. unfold series_sum. now rewrite map_app, list_sum_app. Qed.

(** [loc_set] appends when the label is new. *)
Lemma loc_set_new (s : series) (k : string) (v : nat) :
  ~ In k (map fst s) -> loc_set s k v = s ++ [(k, v)].
Proof.
  induction s as [|[k' v'] t IH]; intros Hn; [reflexivity|]. cbn [loc_set].
  destruct (String.eqb_spec k' k) as [->|Hne]; [exfalso; apply Hn; now left|].
  cbn [app]. rewrite IH; [reflexivity|]. intros Hin. apply Hn. now right.
Qed.

(** Without a clash of labels, the pie keeps every count. *)
Lemma pie_parts_sum (c : series) :
  (Nat.ltb 8 (List.length c) = true -> ~ In "Outros" (map fst (firstn 8 c))) ->
  series_sum (pie_parts c) = series_sum c.
Proof.
  intros Hn. unfold pie_parts. destruct (Nat.ltb 8 (List.length c)); [|reflexivity].
  rewrite loc_set_new by (apply Hn; reflexivity).
  rewrite series_sum_app. unfold series_sum at 2. simpl map; simpl list_sum.
  rewrite Nat.add_0_r, <- series_sum_app, firstn_skipn. reflexivity.
Qed.

(** Without a clash, more than 8 labels give the first 8 and ["Outros"]
    with the sum of the others; 8 labels or fewer are kept as they are. *)
Lemma pie_parts_shape (c : series) :
  ~ In "Outros" (map fst (firstn 8 c)) ->
  (8 < List.length c ->
   pie_parts c = firstn 8 c ++ [("Outros", series_sum (skipn 8 c))]
   /\ List.length (pie_parts c) = 9)
  /\ (List.length c <= 8 -> pie_parts c = c).
Proof.
  intros Hn. unfold pie_parts. split.
  - intros Hlen. apply Nat.ltb_lt in Hlen. rewrite Hlen.
    rewrite loc_set_new by exact Hn. split; [reflexivity|].
    apply Nat.ltb_lt in Hlen. rewrite length_app, length_firstn. cbn [List.length]. lia.
  - intros Hlen. destruct (Nat.ltb 8 (List.length c)) eqn:E; [|reflexivity].
    apply Nat.ltb_lt in E. lia.
Qed.

End Counting.

(** ** The stable sort is a descending sort *)

Section Stable_sort.
Local Open Scope nat_scope.

Lemma insert_desc_perm (e : string * nat) (s : series) :
  Permutation (e :: s) (insert_desc e s).
Proof.
  induction s as [|e' t IH]; cbn [insert_desc]; [reflexivity|].
  destruct (Nat.leb (snd e') (snd e)); [reflexivity|].
  rewrite perm_swap. now apply perm_skip.
Qed.

Lemma stable_sort_desc_perm (s : series) : Permutation s (stable_sort_desc s).
Proof.
  induction s as [|e s IH]; cbn [stable_sort_desc fold_right]; [reflexivity|].
  rewrite <- insert_desc_perm. now apply perm_skip.
Qed.

Lemma insert_desc_sorted (e : string * nat) (s : series) :
  descending s -> descending (insert_desc e s).
Proof.
  unfold descending. induction 1 as [|e' t Ht IH Hall]; cbn [insert_desc].
  - constructor; constructor.
  - destruct (Nat.leb (snd e') (snd e)) eqn:E.
    + apply Nat.leb_le in E. constructor; [constructor; assumption|].
      constructor; [lia|]. eapply Forall_impl; [|exact Hall]. cbn. intros x Hx. lia.
    + apply Nat.leb_gt in E. constructor; [exact IH|].
      eapply Permutation_Forall; [apply insert_desc_perm|].
      constructor; [lia | exact Hall].
Qed.

Lemma stable_sort_desc_sorted (s : series) : descending (stable_sort_desc s).
Proof.
  induction s as [|e s IH]; cbn [stable_sort_desc fold_right].
  - constructor.
  - apply insert_desc_sorted, IH.
Qed.

Lemma before_label_counts (e e' : string * nat) :
  (before_label e e' = true -> snd e' <= snd e)
  /\ (before_label e e' = false -> snd e <= snd e').
Proof.
  unfold before_label. destruct (Nat.ltb_spec (snd e') (snd e)) as [Hlt|Hge]; cbn [orb].
  - split; [lia | discriminate].
  - destruct (Nat.eqb_spec (snd e') (snd e)) as [E|Hne]; cbn [andb]; split; intros; lia.
Qed.

Lemma insert_desc_label_perm (e : string * nat) (s : series) :
  Permutation (e :: s) (insert_desc_label e s).
Proof.
  induction s as [|e' t IH]; cbn [insert_desc_label]; [reflexivity|].
  destruct (before_label e e'); [reflexivity|].
  rewrite perm_swap. now apply perm_skip.
Qed.

Lemma label_sort_desc_perm (s : series) : Permutation s (label_sort_desc s).
Proof.
  induction s as [|e s IH]; cbn [label_sort_desc fold_right]; [reflexivity|].
  rewrite <- insert_desc_label_perm. now apply perm_skip.
Qed.

Lemma insert_desc_label_sorted (e : string * nat) (s : series) :
  descending s -> descending (insert_desc_label e s).
Proof.
  unfold descending. induction 1 as [|e' t Ht IH Hall]; cbn [insert_desc_label].
  - constructor; constructor.
  - destruct (before_label_counts e e') as [Hb Hnb].
    destruct (before_label e e').
    + specialize (Hb eq_refl). constructor; [constructor; assumption|].
      constructor; [lia|]. eapply Forall_impl; [|exact Hall]. cbn. intros x Hx. lia.
    + specialize (Hnb eq_refl). constructor; [exact IH|].
      eapply Permutation_Forall; [apply insert_desc_label_perm|].
      constructor; [lia | exact Hall].
Qed.

Lemma label_sort_desc_sorted (s : series) : descending (label_sort_desc s).
Proof.
  induction s as [|e s IH]; cbn [label_sort_desc fold_right].
  - constructor.
  - apply insert_desc_label_sorted, IH.
Qed.

End Stable_sort.

(** ** The bar series (C8) *)

Section Ranking.
Local Open Scope nat_scope.
Context {R : Type} `{Arith R}.
Variable sort_values : series -> series.
Hypothesis sort_values_perm : forall s, Permutation s (sort_values s).

Lemma cont_perm (xs : list (option string)) : Permutation (tally xs) (cont sort_values xs).
Proof.
  unfold cont, value_counts.
  eapply Permutation_trans; apply sort_values_perm.
Qed.


Lemma cont_labels_NoDup (xs : list (option string)) : NoDup (map fst (cont sort_values xs)).
Proof.
  eapply Permutation_NoDup; [apply Permutation_map, cont_perm|].
  rewrite tally_labels. apply unique_NoDup.
Qed.

Lemma cont_length (xs : list (option string)) :
  List.length (cont sort_values xs) = List.length (unique (dropna xs)).
Proof.
  rewrite <- (Permutation_length (cont_perm xs)), <- tally_labels. now rewrite length_map.
Qed.

Lemma cont_sum (xs : list (option string)) :
  series_sum (cont sort_values xs) = List.length (dropna xs).
Proof. rewrite <- (series_sum_perm _ _ (cont_perm xs)). apply series_sum_tally. Qed.

End Ranking.

Section Sorted_prefix.
Local Open Scope nat_scope.


Lemma descending_counts (s : series) :
  descending s -> StronglySorted (fun a b => b <= a) (map snd s).
Proof.
  unfold descending. induction 1 as [|e s Hs IH Hall]; cbn [map]; constructor.
  - exact IH.
  - apply Forall_map. exact Hall.
Qed.

Lemma NoDup_firstn (A : Type) (n : nat) (l : list A) : NoDup l -> NoDup (firstn n l).
Proof.
  intros Hnd. rewrite <- (firstn_skipn n l) in Hnd. now apply NoDup_app_remove_r in Hnd.
Qed.


End Sorted_prefix.




(** ** Rendering twice, and the order among equal counts (C9) *)

Section Tie_order.
Local Open Scope nat_scope.

(** A list of counts has one non-increasing arrangement. *)
Lemma counts_sorted_unique (l l' : list nat) :
  StronglySorted (fun a b => b <= a) l -> StronglySorted (fun a b => b <= a) l' ->
  Permutation l l' -> l = l'.
Proof.
  intros Hl. revert l'. induction Hl as [|a t Ht IH Ha]; intros l' Hl' Hp.
  - apply Permutation_nil in Hp. now subst.
  - destruct Hl' as [|b t' Ht' Hb].
    + apply Permutation_sym, Permutation_nil in Hp. discriminate.
    + assert (E : a = b).
      { rewrite Forall_forall in Ha, Hb.
        assert (Hab : In a (b :: t')) by (eapply Permutation_in; [exact Hp | now left]).
        assert (Hba : In b (a :: t))
          by (eapply Permutation_in; [apply Permutation_sym; exact Hp | now left]).
        destruct Hab as [->|Hab]; [reflexivity|].
        destruct Hba as [->|Hba]; [reflexivity|].
        specialize (Ha _ Hba). specialize (Hb _ Hab). lia. }
      subst b. f_equal. apply IH; [exact Ht'|].
      exact (Permutation_cons_inv Hp).
Qed.

(** Two rankings of the same entries list the same counts. *)
Lemma descending_perm_counts (s s' : series) :
  descending s -> descending s' -> Permutation s s' -> map snd s = map snd s'.
Proof.
  intros Hs Hs' Hp. apply counts_sorted_unique.
  - now apply descending_counts.
  - now apply descending_counts.
  - now apply Permutation_map.
Qed.

(** They are the same ranking when no two entries have the same count. *)
Lemma descending_perm_eq (s s' : series) :
  descending s -> descending s' -> Permutation s s' -> NoDup (map snd s) -> s = s'.
Proof.
  intros Hs Hs' Hp Hnd.
  pose proof (descending_perm_counts s s' Hs Hs' Hp) as Hc. clear Hs Hs'.
  revert s' Hp Hc. induction s as [|a t IH]; intros s' Hp Hc.
  - apply Permutation_nil in Hp. now subst.
  - destruct s' as [|b t']; [discriminate Hc|].
    cbn [map] in Hc, Hnd. injection Hc as Hab Hc. inversion Hnd as [|? ? Hnot Hnd']; subst.
    assert (E : a = b).
    { assert (Hba : In b (a :: t))
        by (eapply Permutation_in; [apply Permutation_sym; exact Hp | now left]).
      destruct Hba as [->|Hba]; [reflexivity|].
      exfalso. apply Hnot. rewrite Hab. now apply in_map. }
    subst b. f_equal. apply IH; [exact Hnd' | exact (Permutation_cons_inv Hp) | exact Hc].
Qed.

Lemma firstn_map_snd (n : nat) (s : series) : map snd (firstn n s) = firstn n (map snd s).
Proof. symmetry. apply firstn_map. Qed.

End Tie_order.

Section Twice.
Local Open Scope nat_scope.
Context {R : Type} `{Arith R}.

Lemma tally_counts_NoDup (xs : list (option string)) :
  (forall a b, In a (dropna xs) -> In b (dropna xs) ->
               count (dropna xs) a = count (dropna xs) b -> a = b) ->
  NoDup (map snd (tally xs)).
Proof.
  intros Hinj. unfold tally. rewrite map_map. cbn [snd].
  apply NoDup_map_NoDup_ForallPairs; [|apply unique_NoDup].
  intros a b Ha Hb E.
  apply (proj1 (unique_In _ _)) in Ha. apply (proj1 (unique_In _ _)) in Hb.
  now apply Hinj.
Qed.

End Twice.

(** C9. [build_bars_pie] returns a figure and leaves the loaded data as
    it found them, so that a second call on the same selection returns
    the same result as the first. The order among equal counts is the
    one [sort_values] gives: whatever descending sort it is, the bar
    values are the same sequence, and when no two models of the subset
    occur equally often the bar labels and the pie are the same too. *)
Theorem distribution_fixed_up_to_ties (R : Type) (HR : Arith R)
  (sort_values sort_values' : series -> series)
  (file : option (workbook R)) (ctx : Ctx R) (sel : option string) :
  (forall s, Permutation s (sort_values s)) -> (forall s, descending (sort_values s)) ->
  (forall s, Permutation s (sort_values' s)) -> (forall s, descending (sort_values' s)) ->
  startup file = Ok ctx -> has_column (df_eqp ctx) "Modelo" = true ->
  exists x y pie x' y' pie' lay,
    build_bars_pie sort_values sel ctx
    = (Ok {| data := [Bar x y "Top 5 Modelos" "#004B8D"; pie]; layout := lay |}, ctx)
    /\ build_bars_pie sort_values sel (snd (build_bars_pie sort_values sel ctx))
       = build_bars_pie sort_values sel ctx
    /\ build_bars_pie sort_values' sel ctx
       = (Ok {| data := [Bar x' y' "Top 5 Modelos" "#004B8D"; pie']; layout := lay |}, ctx)
    /\ y = y'
    /\ ((forall a b, In a (models (subset ctx sel)) -> In b (models (subset ctx sel)) ->
           count (models (subset ctx sel)) a = count (models (subset ctx sel)) b -> a = b) ->
        x = x' /\ pie = pie').
Proof.
  intros Hp Hd Hp' Hd' Hs Hm.
  destruct (loaded_columns file ctx Hs) as (Hl & _).
  pose proof (build_bars_pie_run sort_values ctx sel Hl Hm) as Hrun.
  pose proof (build_bars_pie_run sort_values' ctx sel Hl Hm) as Hrun'.
  set (m := map (@Modelo R) (subset ctx sel)) in *.
  assert (Hperm : Permutation (cont sort_values m) (cont sort_values' m)).
  { eapply Permutation_trans; [apply Permutation_sym, (cont_perm sort_values Hp)|].
    apply (cont_perm sort_values' Hp'). }
  assert (Hdc : descending (cont sort_values m)) by apply Hd.
  assert (Hdc' : descending (cont sort_values' m)) by apply Hd'.
  do 7 eexists. split; [exact Hrun|]. split; [now rewrite Hrun|].
  split; [exact Hrun'|]. split.
  - unfold top5. rewrite !firstn_map_snd.
    now rewrite (descending_perm_counts _ _ Hdc Hdc' Hperm).
  - intros Hinj.
    assert (E : cont sort_values m = cont sort_values' m).
    { apply descending_perm_eq; try assumption.
      eapply Permutation_NoDup;
        [apply Permutation_map, (cont_perm sort_values Hp)|].
      apply tally_counts_NoDup. exact Hinj. }
    now rewrite E.
Qed.

Lemma distribution_fixed_up_to_ties_witness :
  startup (Some wb_demo) = Ok ctx_demo
  /\ has_column (df_eqp ctx_demo) "Modelo" = true
  /\ exists x y pie x' y' pie' lay,
    build_bars_pie stable_sort_desc None ctx_demo
    = (Ok {| data := [Bar x y "Top 5 Modelos" "#004B8D"; pie]; layout := lay |}, ctx_demo)
    /\ build_bars_pie stable_sort_desc None
         (snd (build_bars_pie stable_sort_desc None ctx_demo))
       = build_bars_pie stable_sort_desc None ctx_demo
    /\ build_bars_pie label_sort_desc None ctx_demo
       = (Ok {| data := [Bar x' y' "Top 5 Modelos" "#004B8D"; pie']; layout := lay |}, ctx_demo)
    /\ y = y'
    /\ ((forall a b, In a (models (subset ctx_demo None)) ->
                     In b (models (subset ctx_demo None)) ->
           count (models (subset ctx_demo None)) a = count (models (subset ctx_demo None)) b ->
           a = b) ->
        x = x' /\ pie = pie').
Proof.
  assert (Hs : startup (Some wb_demo) = Ok ctx_demo) by (vm_compute; reflexivity).
  split; [exact Hs|]. split; [reflexivity|].
  exact (distribution_fixed_up_to_ties Q Arith_Q stable_sort_desc label_sort_desc
           (Some wb_demo) ctx_demo None
           stable_sort_desc_perm stable_sort_desc_sorted
           label_sort_desc_perm label_sort_desc_sorted Hs eq_refl).
Defined.

(** C9, as the specification states it, fails: the script asks for a
    descending sort and names no order among equal counts. Two sorts
    that both put the counts in descending order, one keeping equal
    counts in the order of the index, the other in decreasing order of
    their labels, give different bar series for leader A, whose two
    models occur once each. *)
Lemma tie_order_depends_on_sort :
  (forall s, Permutation s (stable_sort_desc s)) /\ (forall s, descending (stable_sort_desc s))
  /\ (forall s, Permutation s (label_sort_desc s)) /\ (forall s, descending (label_sort_desc s))
  /\ startup (Some wb_demo) = Ok ctx_demo
  /\ map (@Modelo Q) (subset ctx_demo (Some "A")) = [Some "X"; Some "Y"]
  /\ (exists pie lay,
        fst (build_bars_pie stable_sort_desc (Some "A") ctx_demo)
        = Ok {| data := [Bar ["X"; "Y"] [1; 1]%nat "Top 5 Modelos" "#004B8D"; pie];
                layout := lay |})
  /\ (exists pie lay,
        fst (build_bars_pie label_sort_desc (Some "A") ctx_demo)
        = Ok {| data := [Bar ["Y"; "X"] [1; 1]%nat "Top 5 Modelos" "#004B8D"; pie];
                layout := lay |}).
Proof.
  split; [exact stable_sort_desc_perm|]. split; [exact stable_sort_desc_sorted|].
  split; [exact label_sort_desc_perm|]. split; [exact label_sort_desc_sorted|].
  split; [vm_compute; reflexivity|]. split; [vm_compute; reflexivity|].
  split; eexists; eexists; vm_compute; reflexivity.
Qed.

(** ** The pie and the rows it counts (C10, C2) *)

(** C10, as the script behaves. Unless more than 8 distinct models occur
    and one of the first 8 of the ranking is itself named Outros, the
    values of the pie add up to the number of rows of the subset that
    have a model name; rows with a blank model cell are not counted. *)
Theorem pie_sums_to_named_rows (R : Type) (HR : Arith R) (sort_values : series -> series)
  (file : option (workbook R)) (ctx : Ctx R) (sel : option string) :
  (forall s, Permutation s (sort_values s)) ->
  startup file = Ok ctx -> has_column (df_eqp ctx) "Modelo" = true ->
  ((8 < List.length (unique (models (subset ctx sel))))%nat ->
   ~ In "Outros" (map fst (firstn 8 (cont sort_values (map (@Modelo R) (subset ctx sel)))))) ->
  exists bar labels values lay,
    fst (build_bars_pie sort_values sel ctx)
    = Ok {| data := [bar; Pie labels values "Mix de Modelos"]; layout := lay |}
    /\ list_sum values = List.length (models (subset ctx sel)).
Proof.
  intros Hperm Hs Hm Hclash.
  destruct (loaded_columns file ctx Hs) as (Hl & _).
  rewrite (build_bars_pie_run sort_values ctx sel Hl Hm). unfold bars_pie_figure.
  do 4 eexists. split; [reflexivity|].
  change (list_sum (map snd ?s)) with (series_sum s).
  rewrite pie_parts_sum.
  - apply (cont_sum sort_values Hperm).
  - intros Hlt. apply Hclash. apply Nat.ltb_lt in Hlt.
    rewrite (cont_length sort_values Hperm) in Hlt. exact Hlt.
Qed.

Lemma pie_sums_to_named_rows_witness :
  startup (Some wb_demo) = Ok ctx_demo
  /\ exists bar labels values lay,
    fst (build_bars_pie stable_sort_desc None ctx_demo)
    = Ok {| data := [bar; Pie labels values "Mix de Modelos"]; layout := lay |}
    /\ list_sum values = List.length (models (subset ctx_demo None)).
Proof.
  assert (Hs : startup (Some wb_demo) = Ok ctx_demo) by (vm_compute; reflexivity).
  split; [exact Hs|].
  apply (pie_sums_to_named_rows Q Arith_Q stable_sort_desc (Some wb_demo) ctx_demo None
           stable_sort_desc_perm Hs); [reflexivity|].
  vm_compute. intros Hlt. apply Nat.leb_le in Hlt. discriminate Hlt.
Defined.

(** C10, as the specification states it, fails: of the two rows of this
    workbook one has a blank model cell, and the pie counts one row. *)
Lemma pie_misses_row_with_blank_model :
  startup (Some wb_blank_model) = Ok ctx_blank_model
  /\ List.length (subset ctx_blank_model None) = 2%nat
  /\ fst (build_bars_pie stable_sort_desc None ctx_blank_model)
     = Ok {| data := [Bar ["X"] [1%nat] "Top 5 Modelos" "#004B8D";
                      Pie ["X"] [1%nat] "Mix de Modelos"];
             layout := {| title := Some "Brasil inteiro: Top 5 Modelos e Mix";
                          lataxis_range := None; lonaxis_range := None |} |}
  /\ list_sum [1%nat] <> List.length (subset ctx_blank_model None).
Proof.
  split; [vm_compute; reflexivity|]. split; [reflexivity|].
  split; [vm_compute; reflexivity|]. vm_compute. discriminate.
Qed.

(** C2, at an input where the script misses it. Nine models occur, with
    9, 8, ..., 1 devices, and the third is named Outros: the pie has 8
    categories, not 9; the entry Outros holds the count of the ninth
    model in place of its own 7 devices, and the values add up to 38 of
    the 45 rows. *)
Lemma pie_overwrites_model_named_outros :
  startup (Some wb_outros) = Ok ctx_outros
  /\ List.length (subset ctx_outros None) = 45%nat
  /\ cont stable_sort_desc (map (@Modelo Q) (subset ctx_outros None))
     = [("M1", 9); ("M2", 8); ("Outros", 7); ("M4", 6); ("M5", 5);
        ("M6", 4); ("M7", 3); ("M8", 2); ("M9", 1)]%nat
  /\ fst (build_bars_pie stable_sort_desc None ctx_outros)
     = Ok {| data := [Bar ["M1"; "M2"; "Outros"; "M4"; "M5"] [9; 8; 7; 6; 5]%nat
                        "Top 5 Modelos" "#004B8D";
                      Pie ["M1"; "M2"; "Outros"; "M4"; "M5"; "M6"; "M7"; "M8"]
                        [9; 8; 1; 6; 5; 4; 3; 2]%nat "Mix de Modelos"];
             layout := {| title := Some "Brasil inteiro: Top 5 Modelos e Mix";
                          lataxis_range := None; lonaxis_range := None |} |}
  /\ list_sum [9; 8; 1; 6; 5; 4; 3; 2]%nat = 38%nat.
Proof.
  split; [vm_compute; reflexivity|]. split; [vm_compute; reflexivity|].
  split; [vm_compute; reflexivity|]. split; [vm_compute; reflexivity | reflexivity].
Qed.

(** Away from that clash the pie is what its comment announces: with
    more than 8 distinct models, the first 8 of the ranking and one
    entry Outros with the sum of the others (with 9 models, the count of
    the ninth); with 8 or fewer, the ranking as it is. *)
Lemma pie_is_top8_and_outros (R : Type) (HR : Arith R) (sort_values : series -> series)
  (file : option (workbook R)) (ctx : Ctx R) (sel : option string)
  (Hperm : forall s, Permutation s (sort_values s))
  (Hs : startup file = Ok ctx) (Hm : has_column (df_eqp ctx) "Modelo" = true) :
  let c := cont sort_values (map (@Modelo R) (subset ctx sel)) in
  ~ In "Outros" (map fst (firstn 8 c)) ->
  exists bar labels values lay,
    fst (build_bars_pie sort_values sel ctx)
    = Ok {| data := [bar; Pie labels values "Mix de Modelos"]; layout := lay |}
    /\ ((8 < List.length (unique (models (subset ctx sel))))%nat ->
        labels = map fst (firstn 8 c) ++ ["Outros"]
        /\ values = map snd (firstn 8 c) ++ [series_sum (skipn 8 c)]
        /\ List.length labels = 9%nat)
    /\ (List.length (unique (models (subset ctx sel))) = 9%nat ->
        series_sum (skipn 8 c) = snd (nth 8 c ("", 0%nat)))
    /\ ((List.length (unique (models (subset ctx sel))) <= 8)%nat ->
        labels = map fst c /\ values = map snd c).
Proof.
  intros c Hn. destruct (loaded_columns file ctx Hs) as (Hl & _).
  rewrite (build_bars_pie_run sort_values ctx sel Hl Hm). unfold bars_pie_figure.
  fold c. do 4 eexists. split; [reflexivity|].
  assert (Hlen : List.length c = List.length (unique (models (subset ctx sel))))
    by apply (cont_length sort_values Hperm).
  destruct (pie_parts_shape c Hn) as [Hmore Hfew]. rewrite <- Hlen. split; [|split].
  - intros Hlt. destruct (Hmore Hlt) as [E E9]. rewrite E, !map_app. cbn [map fst snd].
    repeat split. rewrite length_app, length_map, length_firstn. cbn [List.length]. lia.
  - intros E9. clear - E9. do 9 (destruct c as [|? c]; [discriminate|]).
    destruct c; [|discriminate]. unfold series_sum. cbn. lia.
  - intros Hle. now rewrite (Hfew Hle).
Qed.

(** ** The callback *)

Lemma reads_update_dashboard (R : Type) (HR : Arith R) (sort_values : series -> series)
  (sel : option string) : reads (R:=R) (update_dashboard sort_values sel).
Proof.
  unfold update_dashboard.
  apply reads_bind; [apply reads_build_map|]. intros m.
  apply reads_bind; [apply reads_build_bars_pie|]. intros d. apply reads_ret.
Qed.

(** The empty value of the dropdown is no selection. *)
Lemma update_dashboard_empty (R : Type) (HR : Arith R) (sort_values : series -> series) :
  update_dashboard (R:=R) sort_values (Some "") = update_dashboard sort_values None.
Proof. reflexivity. Qed.

(** * Further properties of the script *)

(** ** What the start keeps (lines 44 to 57) *)

Section Sorting_strings.

Lemma insert_str_hd (y x : string) (t : list string) :
  HdRel (fun a b => String.leb a b = true) y t -> String.leb y x = true ->
  HdRel (fun a b => String.leb a b = true) y (insert_str x t).
Proof.
  intros Hhd Hyx. destruct t as [|z t]; cbn [insert_str]; [now constructor|].
  destruct (String.leb x z); constructor; [exact Hyx|]. now inversion Hhd.
Qed.

Lemma insert_str_ascending (x : string) (l : list string) :
  ascending l -> ascending (insert_str x l).
Proof.
  unfold ascending. induction 1 as [|y t Ht IH Hhd]; cbn [insert_str].
  - constructor; constructor.
  - destruct (String.leb x y) eqn:E.
    + constructor; [constructor; assumption | now constructor].
    + constructor; [exact IH|]. apply insert_str_hd; [exact Hhd|].
      destruct (String.leb_total x y) as [Hxy|Hyx]; [congruence | exact Hyx].
Qed.

Lemma sorted_ascending (l : list string) : ascending (sorted l).
Proof.
  induction l as [|x l IH]; cbn [sorted fold_right]; [constructor|].
  now apply insert_str_ascending.
Qed.

Lemma filter_filter (A : Type) (f g : A -> bool) (l : list A) :
  filter g (filter f l) = filter (fun x => f x && g x) l.
Proof.
  induction l as [|x l IH]; [reflexivity|]. cbn [filter].
  destruct (f x); cbn [filter andb]; [destruct (g x)|]; now rewrite IH.
Qed.

Lemma filter_all (A : Type) (f : A -> bool) (l : list A) :
  (forall x, f x = true) -> filter f l = l.
Proof.
  intros Hf. induction l as [|x l IH]; [reflexivity|]. cbn [filter].
  now rewrite Hf, IH.
Qed.

End Sorting_strings.

Section Start_keeps.
Context {R : Type} `{Arith R}.

(** The reference frame the start leaves: each coordinate column the
    sheet has was filtered for blanks, in the order of the loop. *)
Lemma startup_atas (wb : workbook R) (ctx : Ctx R) (a : frame (atas_row R))
  (Hs : startup (Some wb) = Ok ctx) (Ea : ATAs_Coordenadas wb = Some a) :
  df_atas ctx
  = (let a1 := if has_column a "Latitude" then dropna_subset a (@a_Latitude R) else a in
     if has_column a "Longitude" then dropna_subset a1 (@a_Longitude R) else a1).
Proof.
  unfold startup, read_excel in Hs. rewrite Ea in Hs.
  destruct (Resumo_Clusters_V2 wb) as [r|]; [|discriminate].
  destruct (Equipamentos_Clusterizados wb) as [e|]; [|discriminate].
  cbn [rbind normalize] in Hs.
  destruct (getitem _ "ATA_Lider" r_ATA_Lider) as [lider|]; [|discriminate].
  cbn [rbind] in Hs. destruct (groupby_mean _) as [cs|]; [|discriminate].
  cbn [rbind] in Hs. injection Hs as <-. cbn [df_atas].
  assert (Ep : parse (@na_atas R) a = a).
  { unfold parse, na_atas. rewrite map_id. now destruct a. }
  rewrite Ep. cbv zeta.
  destruct (has_column a "Latitude"); reflexivity.
Qed.

End Start_keeps.

Section Start_reads.
Context {R : Type} `{Arith R}.

Lemma startup_resumo (file : option (workbook R)) (ctx : Ctx R)
  (Hs : startup file = Ok ctx) :
  leaders ctx = sorted (unique (dropna (map r_ATA_Lider (rows (df_resumo ctx))))).
Proof.
  unfold startup, read_excel in Hs.
  destruct file as [wb|]; [|discriminate].
  destruct (Resumo_Clusters_V2 wb) as [r|]; [|discriminate].
  destruct (ATAs_Coordenadas wb) as [a|]; [|discriminate].
  destruct (Equipamentos_Clusterizados wb) as [e|]; [|discriminate].
  cbn [rbind normalize] in Hs. unfold getitem in Hs.
  destruct (has_column (parse na_resumo r) "ATA_Lider"); [|discriminate].
  cbn [rbind] in Hs. destruct (groupby_mean _) as [cs|]; [|discriminate].
  cbn [rbind] in Hs. injection Hs as <-. reflexivity.
Qed.

Lemma read_excel_inv (A : Type) (wb : workbook R) (name : string)
  (sheet : workbook R -> option (frame A)) (na : A -> A) (df : frame A) :
  read_excel (Some wb) name sheet na = Ok df ->
  exists raw, sheet wb = Some raw /\ df = parse na raw.
Proof.
  unfold read_excel. destruct (sheet wb) as [raw|]; [|discriminate].
  intros E. injection E as <-. now exists raw.
Qed.

End Start_reads.

(** X1. The leaders the start computes are in ascending order and
    pairwise distinct; they are exactly the texts of the leader column
    of the summary frame as it was read, blank cells left out, and none
    of them is the empty text. *)
Theorem leaders_ascending_distinct (R : Type) (HR : Arith R)
  (file : option (workbook R)) (ctx : Ctx R) :
  startup file = Ok ctx ->
  ascending (leaders ctx) /\ NoDup (leaders ctx)
  /\ (forall l, In l (leaders ctx)
                <-> In (Some l) (map r_ATA_Lider (rows (df_resumo ctx))))
  /\ (forall l, In l (leaders ctx) -> l <> "").
Proof.
  intros Hs. rewrite (startup_resumo file ctx Hs).
  split; [apply sorted_ascending|]. split; [apply keys_NoDup|]. split.
  - intros l. now rewrite keys_In, dropna_In.
  - intros l Hin. rewrite <- (startup_resumo file ctx Hs) in Hin.
    exact (leaders_named file ctx l Hs Hin).
Qed.

Lemma leaders_ascending_distinct_witness :
  startup (Some wb_demo) = Ok ctx_demo
  /\ ascending (leaders ctx_demo) /\ NoDup (leaders ctx_demo)
  /\ (forall l, In l (leaders ctx_demo)
                <-> In (Some l) (map r_ATA_Lider (rows (df_resumo ctx_demo))))
  /\ (forall l, In l (leaders ctx_demo) -> l <> "").
Proof.
  assert (Hs : startup (Some wb_demo) = Ok ctx_demo) by (vm_compute; reflexivity).
  split; [exact Hs|].
  exact (leaders_ascending_distinct Q Arith_Q (Some wb_demo) ctx_demo Hs).
Defined.

(** X2. Of the equipment frame as it was read, the start keeps the
    columns and exactly the rows that have both coordinates, in their
    order; of the reference frame as it was read, it keeps the columns
    and the rows that are not blank at a coordinate column the frame
    has. *)
Theorem startup_keeps_located_rows (R : Type) (HR : Arith R)
  (wb : workbook R) (ctx : Ctx R) (a : frame (atas_row R)) (e : frame (eqp_row R)) :
  startup (Some wb) = Ok ctx ->
  read_excel (Some wb) ATAS_COORD_SHEET (@ATAs_Coordenadas R) (@na_atas R) = Ok a ->
  read_excel (Some wb) EQUIP_SHEET (@Equipamentos_Clusterizados R) (@na_eqp R) = Ok e ->
  columns (df_eqp ctx) = columns e
  /\ rows (df_eqp ctx) = filter located (rows e)
  /\ columns (df_atas ctx) = columns a
  /\ rows (df_atas ctx)
     = filter (fun r => (negb (has_column a "Latitude") || present (a_Latitude r))
                        && (negb (has_column a "Longitude") || present (a_Longitude r)))
              (rows a).
Proof.
  intros Hs Ha He.
  destruct (read_excel_inv _ _ _ _ _ _ Ha) as (a0 & Ea & ->).
  destruct (read_excel_inv _ _ _ _ _ _ He) as (e0 & Ee & ->).
  assert (Ep : parse (@na_atas R) a0 = a0).
  { unfold parse, na_atas. rewrite map_id. now destruct a0. }
  rewrite Ep.
  destruct (startup_inv (Some wb) ctx Hs)
    as (wb' & r & a' & e' & Ew & _ & _ & Ee' & _ & _ & _ & _ & He' & _).
  injection Ew as <-. rewrite Ee in Ee'. injection Ee' as <-.
  rewrite He', (startup_atas wb ctx a0 Hs Ea). cbv zeta.
  split; [reflexivity|]. split; [apply filter_filter|].
  destruct (has_column a0 "Latitude"), (has_column a0 "Longitude");
    cbn [negb orb dropna_subset columns rows]; (split; [reflexivity|]).
  - apply filter_filter.
  - apply filter_ext. intros x. now rewrite andb_true_r.
  - reflexivity.
  - symmetry. now apply filter_all.
Qed.

Lemma startup_keeps_located_rows_witness :
  startup (Some wb_demo) = Ok ctx_demo
  /\ List.length (rows (df_atas ctx_demo)) = 1%nat
  /\ exists a e,
       read_excel (Some wb_demo) ATAS_COORD_SHEET (@ATAs_Coordenadas Q) (@na_atas Q) = Ok a
       /\ read_excel (Some wb_demo) EQUIP_SHEET (@Equipamentos_Clusterizados Q) (@na_eqp Q)
          = Ok e
       /\ columns (df_eqp ctx_demo) = columns e
       /\ rows (df_eqp ctx_demo) = filter located (rows e)
       /\ columns (df_atas ctx_demo) = columns a
       /\ rows (df_atas ctx_demo)
          = filter (fun r => (negb (has_column a "Latitude") || present (a_Latitude r))
                             && (negb (has_column a "Longitude") || present (a_Longitude r)))
                   (rows a).
Proof.
  assert (Hs : startup (Some wb_demo) = Ok ctx_demo) by (vm_compute; reflexivity).
  split; [exact Hs|]. split; [reflexivity|].
  eexists. eexists. split; [reflexivity|]. split; [reflexivity|].
  exact (startup_keeps_located_rows Q Arith_Q wb_demo ctx_demo _ _ Hs eq_refl eq_refl).
Defined.

(** X3. The centroid table is in ascending order of its leaders, and its
    leaders are exactly those that have a kept equipment row. *)
Theorem centroid_keys_ascending (R : Type) (HR : Arith R)
  (file : option (workbook R)) (ctx : Ctx R) :
  startup file = Ok ctx ->
  ascending (map (@c_ATA_Lider R) (df_centroids ctx))
  /\ forall l, In l (map (@c_ATA_Lider R) (df_centroids ctx))
               <-> rows_of (df_eqp ctx) l <> [].
Proof.
  intros Hs. destruct (startup_inv file ctx Hs)
    as (wb & r & a & e & _ & _ & _ & _ & _ & _ & _ & _ & _ & _ & Hc).
  rewrite Hc, map_map. cbn [centroid_of c_ATA_Lider]. rewrite map_id.
  split; [apply sorted_ascending|]. intros l. now rewrite keys_In, key_rows.
Qed.

Lemma centroid_keys_ascending_witness :
  startup (Some wb_demo) = Ok ctx_demo
  /\ ascending (map (@c_ATA_Lider Q) (df_centroids ctx_demo))
  /\ forall l, In l (map (@c_ATA_Lider Q) (df_centroids ctx_demo))
               <-> rows_of (df_eqp ctx_demo) l <> [].
Proof.
  assert (Hs : startup (Some wb_demo) = Ok ctx_demo) by (vm_compute; reflexivity).
  split; [exact Hs|].
  exact (centroid_keys_ascending Q Arith_Q (Some wb_demo) ctx_demo Hs).
Defined.

(** ** The layers of the map (lines 84 to 99) *)

Section Layer_facts.
Context {R : Type} `{Arith R}.

Lemma for_each_flat_map (A B : Type) (f : A -> M (R:=R) (list B)) (g : A -> list B)
  (ls : list A) (ctx : Ctx R) :
  (forall l, f l ctx = (Ok (g l), ctx)) ->
  for_each f ls ctx = (Ok (flat_map g ls), ctx).
Proof.
  intros Hf. induction ls as [|l t IH]; [reflexivity|]. cbn [for_each flat_map].
  rewrite (bind_run _ _ _ _ _ _ (Hf l)), (bind_run _ _ _ _ _ _ IH). reflexivity.
Qed.

Lemma equipment_layers_explicit (ctx : Ctx R) :
  has_column (df_eqp ctx) "ATA_Lider" = true ->
  has_column (df_eqp ctx) "Latitude" = true ->
  has_column (df_eqp ctx) "Longitude" = true ->
  serves ctx = true ->
  equipment_layers ctx = (Ok (flat_map (layer_of ctx) (leaders ctx)), ctx).
Proof.
  intros Hl Hla Hlo. unfold serves. rewrite !andb_true_iff. intros [[_ Hse] Hmo].
  unfold equipment_layers. unfold bind at 1. unfold gets at 1.
  apply for_each_flat_map. intros l.
  unfold bind, gets, lift, ret. rewrite (select_leader _ _ Hl). unfold layer_of.
  destruct (rows_of (df_eqp ctx) l) as [|r0 rs] eqn:Er.
  - unfold empty. cbn [columns rows]. now destruct (columns (df_eqp ctx)).
  - rewrite (not_empty _ _ "ATA_Lider") by (cbn [columns rows]; trivial || discriminate).
    unfold getitem, has_column in *. cbn [columns rows].
    now rewrite Hlo, Hla, Hse, Hmo.
Qed.

Lemma layer_points (ctx : Ctx R) (ls : list string) :
  list_sum (map trace_points (flat_map (layer_of ctx) ls))
  = List.length (flat_map (rows_of (df_eqp ctx)) ls).
Proof.
  induction ls as [|l t IH]; [reflexivity|]. cbn [flat_map].
  rewrite map_app, list_sum_app, length_app, IH. f_equal. unfold layer_of.
  destruct (rows_of (df_eqp ctx) l); [reflexivity|].
  cbn [map trace_points]. simpl list_sum. now rewrite length_map, Nat.add_0_r.
Qed.

Lemma filter_disjoint_union (A : Type) (p q : A -> bool) (l : list A) :
  (forall x, p x = true -> q x = false) ->
  Permutation (filter p l ++ filter q l) (filter (fun x => p x || q x) l).
Proof.
  intros Hd. induction l as [|x l IH]; [reflexivity|]. cbn [filter].
  destruct (p x) eqn:Ep; cbn [orb].
  - rewrite (Hd x Ep). cbn [app]. now apply perm_skip.
  - destruct (q x); [|exact IH].
    rewrite <- Permutation_middle. now apply perm_skip.
Qed.

(** Over distinct leaders, the rows of the leaders together are the
    rows whose leader is one of them. *)
Lemma rows_of_leaders (df : frame (eqp_row R)) (ls : list string) :
  NoDup ls ->
  Permutation (flat_map (rows_of df) ls)
              (filter (fun r => existsb (cell_eqb (ATA_Lider r)) ls) (rows df)).
Proof.
  induction 1 as [|l ls Hnin Hnd IH]; cbn [flat_map existsb].
  - induction (rows df) as [|x l IH]; [reflexivity | exact IH].
  - rewrite IH. unfold rows_of. apply filter_disjoint_union.
    intros r Hr. destruct (existsb _ ls) eqn:E; [|reflexivity].
    apply existsb_exists in E. destruct E as [l' [Hin Hl']].
    destruct (ATA_Lider r) as [s|]; [|discriminate]. cbn [cell_eqb] in *.
    apply String.eqb_eq in Hr, Hl'. subst. contradiction.
Qed.

End Layer_facts.

(** X4. With its columns in place, the equipment part of the map has
    one layer per leader that has rows, in the order of the leaders, and
    none for a leader without rows; together the layers hold each row
    whose leader is one of the leaders exactly once, and no other row. *)
Theorem equipment_layers_cover_listed_rows (R : Type) (HR : Arith R)
  (file : option (workbook R)) (ctx : Ctx R) :
  startup file = Ok ctx -> serves ctx = true ->
  equipment_layers ctx = (Ok (flat_map (layer_of ctx) (leaders ctx)), ctx)
  /\ Permutation (flat_map (rows_of (df_eqp ctx)) (leaders ctx))
                 (filter (listed ctx) (rows (df_eqp ctx)))
  /\ list_sum (map trace_points (flat_map (layer_of ctx) (leaders ctx)))
     = List.length (filter (listed ctx) (rows (df_eqp ctx))).
Proof.
  intros Hs Hserves. destruct (loaded_columns file ctx Hs) as (Hl & Hla & Hlo).
  assert (Hnd : NoDup (leaders ctx)).
  { destruct (startup_inv file ctx Hs)
      as (wb & r & a & e & _ & _ & _ & _ & _ & _ & _ & _ & _ & El & _).
    rewrite El. apply keys_NoDup. }
  pose proof (rows_of_leaders (df_eqp ctx) (leaders ctx) Hnd) as Hp.
  split; [now apply equipment_layers_explicit|]. split; [exact Hp|].
  rewrite layer_points. exact (Permutation_length Hp).
Qed.

Lemma equipment_layers_cover_listed_rows_witness :
  startup (Some wb_demo) = Ok ctx_demo
  /\ equipment_layers ctx_demo = (Ok (flat_map (layer_of ctx_demo) (leaders ctx_demo)), ctx_demo)
  /\ Permutation (flat_map (rows_of (df_eqp ctx_demo)) (leaders ctx_demo))
                 (filter (listed ctx_demo) (rows (df_eqp ctx_demo)))
  /\ list_sum (map trace_points (flat_map (layer_of ctx_demo) (leaders ctx_demo)))
     = List.length (filter (listed ctx_demo) (rows (df_eqp ctx_demo))).
Proof.
  assert (Hs : startup (Some wb_demo) = Ok ctx_demo) by (vm_compute; reflexivity).
  split; [exact Hs|].
  exact (equipment_layers_cover_listed_rows Q Arith_Q (Some wb_demo) ctx_demo Hs eq_refl).
Defined.

(** ** Colours (lines 86 and 97) *)

Section Colour_facts.
Local Open Scope nat_scope.

Lemma combine_seq_nth (A : Type) (l : list A) (s i : nat) (x : A) :
  nth_error l i = Some x -> In (s + i, x) (combine (seq s (List.length l)) l).
Proof.
  revert s i. induction l as [|y l IH]; intros s i Hn; [now destruct i|].
  cbn [List.length seq combine]. destruct i as [|i]; cbn [nth_error] in Hn.
  - injection Hn as <-. left. now rewrite Nat.add_0_r.
  - right. rewrite <- Nat.add_succ_comm. now apply IH.
Qed.

Lemma combine_seq_snd (A : Type) (l : list A) (s : nat) :
  map snd (combine (seq s (List.length l)) l) = l.
Proof.
  revert s. induction l as [|y l IH]; intros s; [reflexivity|].
  cbn [List.length seq combine map snd]. now rewrite IH.
Qed.

Lemma color_map_keys (ls : list string) : map fst (color_map ls) = ls.
Proof.
  unfold color_map. rewrite map_map. cbn [fst]. apply combine_seq_snd.
Qed.

Lemma color_map_entry (ls : list string) (i : nat) (l : string) :
  nth_error ls i = Some l ->
  In (l, nth (i mod List.length palette) palette "") (color_map ls).
Proof.
  intros Hn. unfold color_map. apply in_map_iff. exists (i, l). split; [reflexivity|].
  exact (combine_seq_nth string ls 0 i l Hn).
Qed.

Lemma assoc_unique (cm : list (string * string)) (k v v' : string) :
  NoDup (map fst cm) -> In (k, v) cm -> In (k, v') cm -> v = v'.
Proof.
  induction cm as [|[k0 v0] cm IH]; cbn [map fst]; intros Hnd H1 H2; [destruct H1|].
  inversion Hnd as [|? ? Hnin Hnd']; subst.
  destruct H1 as [E1|H1], H2 as [E2|H2].
  - congruence.
  - injection E1 as -> ->. exfalso. apply Hnin. apply in_map_iff. now exists (k, v').
  - injection E2 as -> ->. exfalso. apply Hnin. apply in_map_iff. now exists (k, v).
  - now apply IH.
Qed.

(** With distinct keys the lookup finds the entry of the key. *)
Lemma color_of_entry (cm : list (string * string)) (k v : string) :
  NoDup (map fst cm) -> In (k, v) cm -> color_of cm k = v.
Proof.
  intros Hnd Hin. unfold color_of.
  destruct (find _ (rev cm)) as [[k' v']|] eqn:E.
  - apply find_some in E. destruct E as [Hin' Hk]. cbn [fst] in Hk.
    apply String.eqb_eq in Hk. subst k'. apply in_rev in Hin'. cbn [snd].
    exact (assoc_unique cm k v' v Hnd Hin' Hin).
  - exfalso. pose proof (find_none _ _ E (k, v) (proj1 (in_rev cm (k, v)) Hin)) as Hf.
    cbn [fst] in Hf. now rewrite String.eqb_refl in Hf.
Qed.

Lemma palette_NoDup : NoDup palette.
Proof.
  unfold palette. repeat constructor; cbn [In]; intuition discriminate.
Qed.

Lemma color_of_leader (ls : list string) (i : nat) (l : string) :
  NoDup ls -> nth_error ls i = Some l ->
  color_of (color_map ls) l = nth (i mod 10) palette "".
Proof.
  intros Hnd Hn. apply color_of_entry; [now rewrite color_map_keys|].
  exact (color_map_entry ls i l Hn).
Qed.

End Colour_facts.

(** X5. The colour of a leader's layer is the palette entry at the
    leader's rank modulo 10: it is one of the ten colours, and two
    leaders whose ranks differ modulo 10 have different colours. *)
Theorem layer_colour_by_rank (R : Type) (HR : Arith R)
  (file : option (workbook R)) (ctx : Ctx R) (i : nat) (l : string) :
  startup file = Ok ctx -> nth_error (leaders ctx) i = Some l ->
  color_of (color_map (leaders ctx)) l = nth (i mod 10) palette ""
  /\ In (color_of (color_map (leaders ctx)) l) palette
  /\ forall j l', nth_error (leaders ctx) j = Some l' -> i mod 10 <> j mod 10 ->
                  color_of (color_map (leaders ctx)) l
                  <> color_of (color_map (leaders ctx)) l'.
Proof.
  intros Hs Hn.
  assert (Hnd : NoDup (leaders ctx)).
  { destruct (startup_inv file ctx Hs)
      as (wb & r & a & e & _ & _ & _ & _ & _ & _ & _ & _ & _ & El & _).
    rewrite El. apply keys_NoDup. }
  assert (Hlt : forall k, (k mod 10 < List.length palette)%nat).
  { intros k. cbn [palette List.length]. apply Nat.mod_upper_bound. discriminate. }
  rewrite (color_of_leader _ i l Hnd Hn). split; [reflexivity|].
  split; [apply nth_In, Hlt|].
  intros j l' Hj Hij. rewrite (color_of_leader _ j l' Hnd Hj). intros E.
  apply Hij. exact (proj1 (NoDup_nth palette "") palette_NoDup _ _ (Hlt i) (Hlt j) E).
Qed.

Lemma layer_colour_by_rank_witness :
  startup (Some wb_demo) = Ok ctx_demo /\ nth_error (leaders ctx_demo) 1 = Some "B"
  /\ color_of (color_map (leaders ctx_demo)) "B" = nth (1 mod 10) palette ""
  /\ In (color_of (color_map (leaders ctx_demo)) "B") palette
  /\ forall j l', nth_error (leaders ctx_demo) j = Some l' -> (1 mod 10 <> j mod 10)%nat ->
                  color_of (color_map (leaders ctx_demo)) "B"
                  <> color_of (color_map (leaders ctx_demo)) l'.
Proof.
  assert (Hs : startup (Some wb_demo) = Ok ctx_demo) by (vm_compute; reflexivity).
  split; [exact Hs|]. split; [reflexivity|].
  exact (layer_colour_by_rank Q Arith_Q (Some wb_demo) ctx_demo 1 "B" Hs eq_refl).
Defined.

(** ** The star and the callback (lines 105 to 119, 265 to 272) *)

Section Star_facts.
Context {R : Type} `{Arith R}.

Lemma valid_leader_Some (sel : option string) (ls : list string) (l : string) :
  valid_leader sel ls = Some l <-> sel = Some l /\ l <> "" /\ In l ls.
Proof.
  unfold valid_leader, truthy. destruct sel as [s|]; [|split; [discriminate | intros [E _]; discriminate E]].
  destruct (String.eqb_spec s "") as [->|Hne]; cbn [negb andb].
  - split; [discriminate|]. intros [E [Hl _]]. injection E as <-. congruence.
  - destruct (existsb (String.eqb s) ls) eqn:E.
    + apply existsb_eqb_In in E. split.
      * intros E'. injection E' as <-. now repeat split.
      * intros [E' _]. exact E'.
    + split; [discriminate|]. intros [E' [_ Hin]]. injection E' as <-.
      apply existsb_eqb_In in Hin. congruence.
Qed.

(** The two outcomes of the selection: no star and the default ranges,
    or the star of a known leader with rows and its padded ranges. *)
Lemma leader_view_cases (file : option (workbook R)) (ctx : Ctx R) (sel : option string)
  (Hs : startup file = Ok ctx) :
  (leader_view sel ctx = (Ok ([], default_lataxis_range, default_lonaxis_range), ctx)
   /\ ~ (exists L, sel = Some L /\ In L (leaders ctx) /\ rows_of (df_eqp ctx) L <> []))
  \/ (exists L, sel = Some L /\ In L (leaders ctx) /\ rows_of (df_eqp ctx) L <> []
      /\ leader_view sel ctx
         = (Ok ([star L (Some (group_mean (dropna (lats ctx L))))
                        (Some (group_mean (dropna (lons ctx L))))],
                padded (col_min (lats ctx L)) (col_max (lats ctx L)),
                padded (col_min (lons ctx L)) (col_max (lons ctx L))), ctx)).
Proof.
  destruct (valid_leader sel (leaders ctx)) as [l|] eqn:Ev.
  - pose proof (proj1 (valid_leader_Some _ _ _) Ev) as (-> & Hne & Hin).
    destruct (rows_of (df_eqp ctx) l) as [|r0 rs] eqn:Er.
    + left. split.
      * apply (leader_view_default file ctx Hs). now rewrite Ev.
      * intros (L & E & _ & Hr). injection E as <-. congruence.
    + right. exists l. assert (Hr : rows_of (df_eqp ctx) l <> []) by congruence.
      repeat split; try assumption.
      rewrite (leader_view_selected file ctx Hs l Hin Hne Hr).
      destruct (centroid_means R _ file ctx l Hs Hr) as (Hc & _).
      rewrite (centroid_entry file ctx l Hs), Er in Hc. unfold centroid_of in Hc.
      injection Hc as E1 E2. unfold centroid_of. cbn [Lat_Centroide Lon_Centroide].
      now rewrite E1, E2.
  - left. split.
    + apply (leader_view_default file ctx Hs). now rewrite Ev.
    + intros (L & -> & Hin & _).
      assert (E : valid_leader (Some L) (leaders ctx) = Some L).
      { apply valid_leader_Some. repeat split; [|exact Hin].
        exact (leaders_named file ctx L Hs Hin). }
      congruence.
Qed.

End Star_facts.

(** X6. With its columns in place, [build_map] returns a figure for
    every selection. The figure has a star exactly when the selection is
    a leader of [leaders] with at least one equipment row; the star is
    then the last trace, the only one with that symbol, labelled with
    the leader and placed at the coordinates of the leader's entry of
    the centroid table, its only entry there. *)
Theorem star_iff_leader_with_rows (R : Type) (HR : Arith R)
  (file : option (workbook R)) (ctx : Ctx R) (sel : option string) :
  startup file = Ok ctx -> serves ctx = true ->
  exists fig,
    build_map sel ctx = (Ok fig, ctx)
    /\ (has_star fig = true
        <-> exists L, sel = Some L /\ In L (leaders ctx) /\ rows_of (df_eqp ctx) L <> [])
    /\ forall L, sel = Some L -> In L (leaders ctx) -> rows_of (df_eqp ctx) L <> [] ->
         exists c layers,
           centroid ctx L = [c]
           /\ existsb is_star layers = false
           /\ data fig = layers ++ [star L (Lat_Centroide c) (Lon_Centroide c)].
Proof.
  intros Hs Hserves.
  destruct (build_map_run file ctx Hs Hserves) as [layers [Hstar Hrun]].
  destruct (leader_view_cases file ctx sel Hs) as [[Hv Hno]|(L & -> & Hin & Hr & Hv)];
    eexists; (split; [exact (Hrun _ _ _ _ Hv)|]); unfold has_star; cbn [data].
  - rewrite app_nil_r, Hstar. split.
    + split; [discriminate | intros Hex; contradiction].
    + intros L E Hin Hr. exfalso. apply Hno. now exists L.
  - rewrite existsb_app, Hstar. split.
    + split; [intros _; now exists L | reflexivity].
    + intros L' E _ _. injection E as <-.
      destruct (centroid_means R HR file ctx L Hs Hr) as (Hc & _).
      eexists. exists layers. split; [exact Hc|]. split; [exact Hstar|]. reflexivity.
Qed.

Lemma star_iff_leader_with_rows_witness :
  startup (Some wb_demo) = Ok ctx_demo
  /\ exists fig,
    build_map (Some "A") ctx_demo = (Ok fig, ctx_demo)
    /\ (has_star fig = true
        <-> exists L, Some "A" = Some L /\ In L (leaders ctx_demo)
                      /\ rows_of (df_eqp ctx_demo) L <> [])
    /\ forall L, Some "A" = Some L -> In L (leaders ctx_demo) ->
         rows_of (df_eqp ctx_demo) L <> [] ->
         exists c layers,
           centroid ctx_demo L = [c]
           /\ existsb is_star layers = false
           /\ data fig = layers ++ [star L (Lat_Centroide c) (Lon_Centroide c)].
Proof.
  assert (Hs : startup (Some wb_demo) = Ok ctx_demo) by (vm_compute; reflexivity).
  split; [exact Hs|].
  exact (star_iff_leader_with_rows Q Arith_Q (Some wb_demo) ctx_demo (Some "A") Hs eq_refl).
Defined.

(** X7. With its columns in place, the callback raises for no value of
    the dropdown: it returns the map and the distribution of the
    selection, the empty value counting as no selection, and leaves the
    loaded data as they were. *)
Theorem update_dashboard_never_raises (R : Type) (HR : Arith R)
  (sort_values : series -> series)
  (file : option (workbook R)) (ctx : Ctx R) (sel : option string) :
  startup file = Ok ctx -> serves ctx = true ->
  exists m d,
    update_dashboard sort_values sel ctx = (Ok (m, d), ctx)
    /\ build_map (if truthy sel then sel else None) ctx = (Ok m, ctx)
    /\ build_bars_pie sort_values (if truthy sel then sel else None) ctx = (Ok d, ctx).
Proof.
  intros Hs Hserves. unfold update_dashboard.
  set (leader := if truthy sel then sel else None).
  destruct (build_map_run file ctx Hs Hserves) as [layers [_ Hrun]].
  destruct (loaded_columns file ctx Hs) as (Hl & _).
  pose proof (build_bars_pie_run sort_values ctx leader Hl (serves_modelo ctx Hserves)) as Hd.
  assert (Hm : exists m, build_map leader ctx = (Ok m, ctx)).
  { destruct (leader_view_cases file ctx leader Hs) as [[Hv _]|(L & _ & _ & _ & Hv)];
      eexists; exact (Hrun _ _ _ _ Hv). }
  destruct Hm as [m Hm]. exists m. eexists.
  rewrite (bind_run _ _ _ _ _ _ Hm), (bind_run _ _ _ _ _ _ Hd).
  repeat split; [exact Hm | exact Hd].
Qed.

Lemma update_dashboard_never_raises_witness :
  startup (Some wb_demo) = Ok ctx_demo
  /\ exists m d,
    update_dashboard stable_sort_desc (Some "B") ctx_demo = (Ok (m, d), ctx_demo)
    /\ build_map (if truthy (Some "B") then Some "B" else None) ctx_demo = (Ok m, ctx_demo)
    /\ build_bars_pie stable_sort_desc (if truthy (Some "B") then Some "B" else None) ctx_demo
       = (Ok d, ctx_demo).
Proof.
  assert (Hs : startup (Some wb_demo) = Ok ctx_demo) by (vm_compute; reflexivity).
  split; [exact Hs|].
  exact (update_dashboard_never_raises Q Arith_Q stable_sort_desc
           (Some wb_demo) ctx_demo (Some "B") Hs eq_refl).
Defined.

(** ** Missing columns at the first render (lines 76 to 82, 163) *)

(** X8. When the reference frame is not empty and lacks a coordinate
    column, [build_map] raises [KeyError] for every selection, on
    Longitude first and on Latitude when only that one is missing, and
    leaves the loaded data as they were. *)
Theorem build_map_raises_without_reference_coordinates (R : Type) (HR : Arith R)
  (ctx : Ctx R) (sel : option string) :
  empty (df_atas ctx) = false ->
  has_column (df_atas ctx) "Longitude" && has_column (df_atas ctx) "Latitude" = false ->
  build_map sel ctx
  = (Err (KeyError (if has_column (df_atas ctx) "Longitude" then "Latitude" else "Longitude")),
     ctx).
Proof.
  intros He Hc. unfold build_map. unfold bind at 1.
  unfold atas_layer, bind, gets, lift, getitem. rewrite He.
  destruct (has_column (df_atas ctx) "Longitude"); [|reflexivity].
  cbn [andb] in Hc. now rewrite Hc.
Qed.

Lemma build_map_raises_without_reference_coordinates_witness :
  startup (Some wb_no_coords) = Ok ctx_no_coords
  /\ build_map (Some "A") ctx_no_coords
     = (Err (KeyError (if has_column (df_atas ctx_no_coords) "Longitude"
                       then "Latitude" else "Longitude")), ctx_no_coords).
Proof.
  split; [vm_compute; reflexivity|].
  apply (build_map_raises_without_reference_coordinates Q Arith_Q ctx_no_coords (Some "A"));
    reflexivity.
Defined.

(** X9. When the equipment frame has its leader column and lacks the
    model column, [build_bars_pie] raises [KeyError] on Modelo for every
    selection, and leaves the loaded data as they were. *)
Theorem build_bars_pie_raises_without_modelo (R : Type) (HR : Arith R)
  (sort_values : series -> series) (ctx : Ctx R) (sel : option string) :
  has_column (df_eqp ctx) "ATA_Lider" = true ->
  has_column (df_eqp ctx) "Modelo" = false ->
  build_bars_pie sort_values sel ctx = (Err (KeyError "Modelo"), ctx).
Proof.
  intros Hl Hm. unfold build_bars_pie, bind, gets, lift, ret.
  destruct (valid_leader sel (leaders ctx)) as [l|].
  - rewrite (select_leader _ _ Hl). unfold getitem, has_column in *.
    cbn [fst columns]. now rewrite Hm.
  - unfold getitem. cbn [fst]. now rewrite Hm.
Qed.

Lemma build_bars_pie_raises_without_modelo_witness :
  startup (Some wb_no_modelo) = Ok ctx_no_modelo
  /\ build_bars_pie stable_sort_desc (Some "A") ctx_no_modelo
     = (Err (KeyError "Modelo"), ctx_no_modelo).
Proof.
  split; [vm_compute; reflexivity|].
  apply (build_bars_pie_raises_without_modelo Q Arith_Q stable_sort_desc
           ctx_no_modelo (Some "A")); reflexivity.
Defined.

(** ** The sizes of the two series (lines 163 to 171) *)

Section Series_sizes.
Local Open Scope nat_scope.

Lemma loc_set_length (s : series) (k : string) (v : nat) :
  List.length (loc_set s k v) <= S (List.length s).
Proof.
  induction s as [|[k' v'] t IH]; cbn [loc_set List.length]; [lia|].
  destruct (String.eqb k' k); cbn [List.length]; lia.
Qed.

Lemma loc_set_labels (s : series) (k : string) (v : nat) :
  map fst (loc_set s k v)
  = if existsb (String.eqb k) (map fst s) then map fst s else map fst s ++ [k].
Proof.
  induction s as [|[k' v'] t IH]; [reflexivity|]. cbn [loc_set map fst existsb].
  rewrite (String.eqb_sym k k').
  destruct (String.eqb k' k); cbn [orb map fst]; [reflexivity|].
  rewrite IH. now destruct (existsb (String.eqb k) (map fst t)).
Qed.

Lemma loc_set_NoDup (s : series) (k : string) (v : nat) :
  NoDup (map fst s) -> NoDup (map fst (loc_set s k v)).
Proof.
  intros Hnd. rewrite loc_set_labels.
  destruct (existsb (String.eqb k) (map fst s)) eqn:E; [exact Hnd|].
  apply NoDup_app; [exact Hnd | repeat constructor; intros [] |].
  intros x Hx [<-|[]]. apply existsb_eqb_In in Hx. congruence.
Qed.

Lemma pie_parts_length (c : series) : List.length (pie_parts c) <= 9.
Proof.
  unfold pie_parts. destruct (Nat.ltb 8 (List.length c)) eqn:E.
  - pose proof (loc_set_length (firstn 8 c) "Outros" (series_sum (skipn 8 c))).
    pose proof (firstn_le_length 8 c). lia.
  - apply Nat.ltb_ge in E. lia.
Qed.

Lemma pie_parts_NoDup (c : series) :
  NoDup (map fst c) -> NoDup (map fst (pie_parts c)).
Proof.
  intros Hnd. unfold pie_parts. destruct (Nat.ltb 8 (List.length c)); [|exact Hnd].
  apply loc_set_NoDup. rewrite <- firstn_map. now apply NoDup_firstn.
Qed.

End Series_sizes.

(** X10. For every selection and every model column, the bar series has
    at most 5 entries and the pie at most 9; each series has as many
    values as labels, and no label occurs twice in the pie. *)
Theorem series_sizes (R : Type) (HR : Arith R) (sort_values : series -> series)
  (file : option (workbook R)) (ctx : Ctx R) (sel : option string) :
  (forall s, Permutation s (sort_values s)) ->
  startup file = Ok ctx -> has_column (df_eqp ctx) "Modelo" = true ->
  exists x y labels values lay,
    build_bars_pie sort_values sel ctx
    = (Ok {| data := [Bar x y "Top 5 Modelos" "#004B8D";
                      Pie labels values "Mix de Modelos"]; layout := lay |}, ctx)
    /\ (List.length x <= 5)%nat /\ List.length y = List.length x
    /\ (List.length labels <= 9)%nat /\ List.length values = List.length labels
    /\ NoDup labels.
Proof.
  intros Hperm Hs Hm. destruct (loaded_columns file ctx Hs) as (Hl & _).
  rewrite (build_bars_pie_run sort_values ctx sel Hl Hm). unfold bars_pie_figure, top5.
  do 5 eexists. split; [reflexivity|]. rewrite !length_map.
  split; [apply firstn_le_length|]. split; [reflexivity|].
  split; [apply pie_parts_length|]. split; [reflexivity|].
  apply pie_parts_NoDup, (cont_labels_NoDup sort_values Hperm).
Qed.

Lemma series_sizes_witness :
  startup (Some wb_outros) = Ok ctx_outros
  /\ exists x y labels values lay,
    build_bars_pie stable_sort_desc None ctx_outros
    = (Ok {| data := [Bar x y "Top 5 Modelos" "#004B8D";
                      Pie labels values "Mix de Modelos"]; layout := lay |}, ctx_outros)
    /\ (List.length x <= 5)%nat /\ List.length y = List.length x
    /\ (List.length labels <= 9)%nat /\ List.length values = List.length labels
    /\ NoDup labels.
Proof.
  assert (Hs : startup (Some wb_outros) = Ok ctx_outros) by (vm_compute; reflexivity).
  split; [exact Hs|].
  exact (series_sizes Q Arith_Q stable_sort_desc (Some wb_outros) ctx_outros None
           stable_sort_desc_perm Hs eq_refl).
Defined.

(** X11. When no row of the selected subset has a model name, the
    subset being empty or all its model cells blank, both series are
    empty and nothing is raised. *)
Theorem no_model_no_series (R : Type) (HR : Arith R) (sort_values : series -> series)
  (file : option (workbook R)) (ctx : Ctx R) (sel : option string) :
  (forall s, Permutation s (sort_values s)) ->
  startup file = Ok ctx -> has_column (df_eqp ctx) "Modelo" = true ->
  models (subset ctx sel) = [] ->
  exists lay,
    build_bars_pie sort_values sel ctx
    = (Ok {| data := [Bar [] [] "Top 5 Modelos" "#004B8D";
                      Pie [] [] "Mix de Modelos"]; layout := lay |}, ctx).
Proof.
  intros Hperm Hs Hm Hnone. destruct (loaded_columns file ctx Hs) as (Hl & _).
  rewrite (build_bars_pie_run sort_values ctx sel Hl Hm). unfold bars_pie_figure.
  assert (Ec : cont sort_values (map (@Modelo R) (subset ctx sel)) = []).
  { apply Permutation_nil. symmetry.
    rewrite <- (cont_perm sort_values Hperm). unfold tally.
    unfold models in Hnone. now rewrite Hnone. }
  rewrite Ec. eexists. reflexivity.
Qed.

Lemma no_model_no_series_witness :
  startup (Some wb_demo) = Ok ctx_demo /\ models (subset ctx_demo (Some "C")) = []
  /\ exists lay,
    build_bars_pie stable_sort_desc (Some "C") ctx_demo
    = (Ok {| data := [Bar [] [] "Top 5 Modelos" "#004B8D";
                      Pie [] [] "Mix de Modelos"]; layout := lay |}, ctx_demo).
Proof.
  assert (Hs : startup (Some wb_demo) = Ok ctx_demo) by (vm_compute; reflexivity).
  split; [exact Hs|]. split; [reflexivity|].
  exact (no_model_no_series Q Arith_Q stable_sort_desc (Some wb_demo) ctx_demo (Some "C")
           stable_sort_desc_perm Hs eq_refl eq_refl).
Defined.

(** ** The dropdown (lines 236 to 241) *)

(** X14. The values of the dropdown's options are pairwise distinct,
    the initial value is the first of them, and every other value is a
    leader that the figure builders accept as a selection. *)
Theorem dropdown_values (R : Type) (HR : Arith R)
  (file : option (workbook R)) (ctx : Ctx R) :
  startup file = Ok ctx ->
  NoDup (map snd (dropdown_options (leaders ctx)))
  /\ hd_error (map snd (dropdown_options (leaders ctx))) = Some dropdown_value
  /\ forall v, In v (map snd (dropdown_options (leaders ctx))) ->
       v = dropdown_value \/ valid_leader (Some v) (leaders ctx) = Some v.
Proof.
  intros Hs.
  assert (Hnd : NoDup (leaders ctx)).
  { destruct (startup_inv file ctx Hs)
      as (wb & r & a & e & _ & _ & _ & _ & _ & _ & _ & _ & _ & El & _).
    rewrite El. apply keys_NoDup. }
  unfold dropdown_options, dropdown_value. cbn [map snd].
  rewrite map_map. cbn [snd]. rewrite map_id.
  split; [|split; [reflexivity|]].
  - constructor; [|exact Hnd]. intros Hin.
    now apply (leaders_named file ctx "" Hs Hin).
  - intros v [<-|Hin]; [now left|]. right.
    apply valid_leader_Some. repeat split; [|exact Hin].
    exact (leaders_named file ctx v Hs Hin).
Qed.

Lemma dropdown_values_witness :
  startup (Some wb_demo) = Ok ctx_demo
  /\ NoDup (map snd (dropdown_options (leaders ctx_demo)))
  /\ hd_error (map snd (dropdown_options (leaders ctx_demo))) = Some dropdown_value
  /\ forall v, In v (map snd (dropdown_options (leaders ctx_demo))) ->
       v = dropdown_value \/ valid_leader (Some v) (leaders ctx_demo) = Some v.
Proof.
  assert (Hs : startup (Some wb_demo) = Ok ctx_demo) by (vm_compute; reflexivity).
  split; [exact Hs|].
  exact (dropdown_values Q Arith_Q (Some wb_demo) ctx_demo Hs).
Defined.

(** ** No marker without coordinates (lines 44 to 48, 76 to 119) *)

Section Located_facts.
Context {R : Type} `{Arith R}.

Lemma forallb_present_map (A : Type) (f : A -> option R) (l : list A) :
  Forall (fun x => present (f x) = true) l -> forallb present (map f l) = true.
Proof.
  induction 1 as [|x l Hx _ IH]; [reflexivity|]. cbn [map forallb]. now rewrite Hx, IH.
Qed.

Lemma build_map_layers (ctx : Ctx R) (sel : option string)
  (a b tr : list (Trace R)) (la lo : range) :
  atas_layer ctx = (Ok a, ctx) -> equipment_layers ctx = (Ok b, ctx) ->
  leader_view sel ctx = (Ok (tr, la, lo), ctx) ->
  build_map sel ctx
  = (Ok {| data := a ++ b ++ tr;
           layout := {| title := None; lataxis_range := Some la;
                        lonaxis_range := Some lo |} |}, ctx).
Proof.
  intros Ha Hb Hv. unfold build_map.
  rewrite (bind_run _ _ _ _ _ _ Ha), (bind_run _ _ _ _ _ _ Hb), (bind_run _ _ _ _ _ _ Hv).
  reflexivity.
Qed.

(** The reference layer after a successful start: its frame kept only
    rows with both coordinates. *)
Lemma atas_layer_located (file : option (workbook R)) (ctx : Ctx R)
  (Hs : startup file = Ok ctx) :
  serves ctx = true ->
  exists a, atas_layer ctx = (Ok a, ctx) /\ forallb trace_located a = true.
Proof.
  intros Hserves. pose proof Hserves as Hcols. unfold serves in Hcols.
  rewrite !andb_true_iff in Hcols. destruct Hcols as [[[Hlo Hla] _] _].
  destruct (startup_inv file ctx Hs)
    as (wb & r & a & e & -> & _ & Ea & _).
  pose proof (startup_atas wb ctx a Hs Ea) as Hd. cbv zeta in Hd.
  assert (Hc : forall c, has_column (df_atas ctx) c = has_column a c).
  { intros c. rewrite Hd. clear.
    destruct (has_column a "Latitude");
      [change (has_column (dropna_subset a (@a_Latitude R)) "Longitude")
         with (has_column a "Longitude")|];
      destruct (has_column a "Longitude"); reflexivity. }
  rewrite Hc in Hlo, Hla. rewrite Hla in Hd.
  change (has_column (dropna_subset a (@a_Latitude R)) "Longitude")
    with (has_column a "Longitude") in Hd. rewrite Hlo in Hd.
  assert (Hall : Forall (fun x => present (a_Latitude x) = true
                                  /\ present (a_Longitude x) = true) (rows (df_atas ctx))).
  { rewrite Hd. apply Forall_forall. intros x Hx. cbn [dropna_subset rows] in Hx.
    apply filter_In in Hx. destruct Hx as [Hx H2].
    apply filter_In in Hx. destruct Hx as [_ H1]. now split. }
  unfold atas_layer, bind, gets, lift, ret, getitem.
  destruct (empty (df_atas ctx)); [exists []; now split|].
  rewrite <- Hc in Hlo, Hla. rewrite Hlo, Hla. eexists. split; [reflexivity|].
  cbn [forallb trace_located]. rewrite !forallb_present_map; [reflexivity | |];
    (eapply Forall_impl; [|exact Hall]); intros x [H1 H2]; assumption.
Qed.

Lemma layers_located (file : option (workbook R)) (ctx : Ctx R) (ls : list string)
  (Hs : startup file = Ok ctx) :
  forallb trace_located (flat_map (layer_of ctx) ls) = true.
Proof.
  induction ls as [|l ls IH]; [reflexivity|]. cbn [flat_map].
  rewrite forallb_app, IH, andb_true_r. unfold layer_of.
  destruct (rows_of (df_eqp ctx) l) as [|r0 rs] eqn:Er; [reflexivity|].
  rewrite <- Er. cbn [forallb trace_located]. rewrite andb_true_r.
  destruct (rows_of_coords file ctx l Hs) as [Ela Elo]. unfold lats, lons in Ela, Elo.
  rewrite Ela, Elo.
  assert (Hsome : forall vs : list R, forallb present (map Some vs) = true).
  { intros vs. apply forallb_present_map with (f := @Some R).
    apply Forall_forall. reflexivity. }
  now rewrite !Hsome.
Qed.

End Located_facts.

(** X15. With its columns in place, no marker of the map lacks a
    coordinate, whatever the selection: the reference layer, every
    equipment layer and the star carry a latitude and a longitude for
    each marker. *)
Theorem map_markers_located (R : Type) (HR : Arith R)
  (file : option (workbook R)) (ctx : Ctx R) (sel : option string) :
  startup file = Ok ctx -> serves ctx = true ->
  exists fig,
    build_map sel ctx = (Ok fig, ctx) /\ forallb trace_located (data fig) = true.
Proof.
  intros Hs Hserves. destruct (loaded_columns file ctx Hs) as (Hl & Hla & Hlo).
  destruct (atas_layer_located file ctx Hs Hserves) as [a [Ha Hal]].
  pose proof (equipment_layers_explicit ctx Hl Hla Hlo Hserves) as Hb.
  pose proof (layers_located file ctx (leaders ctx) Hs) as Hbl.
  destruct (leader_view_cases file ctx sel Hs) as [[Hv _]|(L & _ & _ & _ & Hv)];
    eexists; (split; [exact (build_map_layers ctx sel _ _ _ _ _ Ha Hb Hv)|]);
    cbn [data]; rewrite !forallb_app, Hal, Hbl; reflexivity.
Qed.

Lemma map_markers_located_witness :
  startup (Some wb_demo) = Ok ctx_demo
  /\ exists fig,
    build_map (Some "A") ctx_demo = (Ok fig, ctx_demo)
    /\ forallb trace_located (data fig) = true.
Proof.
  assert (Hs : startup (Some wb_demo) = Ok ctx_demo) by (vm_compute; reflexivity).
  split; [exact Hs|].
  exact (map_markers_located Q Arith_Q (Some wb_demo) ctx_demo (Some "A") Hs eq_refl).
Defined.
